(** * mcp-server-fetch-typescript: the HTML to Markdown conversion rules

    A shallow embedding of [src/index.ts]: the two Turndown rules
    ([table] and [dl]), the NodeHtmlMarkdown translator table, the
    per-call construction of both converters and the tool dispatcher.

    JavaScript strings are sequences of UTF-16 code units; they are
    modelled as [list N].  The DOM is modelled by the part of its
    interface the source uses: [childNodes], [children], [tagName],
    [textContent], [querySelector] and [querySelectorAll]. *)

From Stdlib Require Import NArith Ascii String List Lia.
From stdpp Require Import base decidable option list strings gmap.

Local Open Scope N_scope.
Set Warnings "-register-all".

(** ** JavaScript strings *)

Abbreviation jsstring := (list N).

(** A string literal of the source, as code units. *)
Definition js (s : string) : jsstring :=
  map N_of_ascii (list_ascii_of_string s).

(** The line feed the source writes as a backslash followed by n. *)
Definition LF : N := 10.
Definition nl : jsstring := [LF].

(** ECMAScript WhiteSpace and LineTerminator code points, the set
    [String.prototype.trim] strips. *)
Definition isWhiteSpace (c : N) : bool :=
  (c =? 0x09) || (c =? 0x0A) || (c =? 0x0B) || (c =? 0x0C) || (c =? 0x0D)
  || (c =? 0x20) || (c =? 0xA0) || (c =? 0x1680)
  || ((0x2000 <=? c) && (c <=? 0x200A))
  || (c =? 0x2028) || (c =? 0x2029) || (c =? 0x202F) || (c =? 0x205F)
  || (c =? 0x3000) || (c =? 0xFEFF).

Fixpoint trimStart (s : jsstring) : jsstring :=
  match s with
  | c :: s' => if isWhiteSpace c then trimStart s' else s
  | [] => []
  end.

Definition trimEnd (s : jsstring) : jsstring := rev (trimStart (rev s)).

(** [String.prototype.trim]. *)
Definition trim (s : jsstring) : jsstring := trimEnd (trimStart s).

(** [Array.prototype.join]. *)
Fixpoint join (sep : jsstring) (parts : list jsstring) : jsstring :=
  match parts with
  | [] => []
  | [p] => p
  | p :: rest => p ++ sep ++ join sep rest
  end.

(** [String.prototype.startsWith] and [String.prototype.includes]. *)
Fixpoint startsWith (p s : jsstring) : bool :=
  match p, s with
  | [], _ => true
  | _ :: _, [] => false
  | a :: p', b :: s' => (a =? b) && startsWith p' s'
  end.

Fixpoint includes (p s : jsstring) : bool :=
  startsWith p s ||
  match s with
  | [] => false
  | _ :: s' => includes p s'
  end.

(** ASCII upper-casing, as the DOM applies it to the qualified name of an
    HTML element to form [tagName]. *)
Definition upper (c : N) : N :=
  if (0x61 <=? c) && (c <=? 0x7A) then c - 0x20 else c.

(** JavaScript truthiness of a string, and [s || ''] on a possibly
    undefined string. *)
Definition truthy (s : jsstring) : bool :=
  match s with [] => false | _ => true end.

Definition orEmpty (o : option jsstring) : jsstring :=
  match o with
  | Some s => if truthy s then s else []
  | None => []
  end.

(** ** The DOM *)

Inductive node : Type :=
| Text (data : jsstring)
| Comment (data : jsstring)
| Element (localName : jsstring) (childNodes : list node).

Definition childNodes (n : node) : list node :=
  match n with
  | Element _ cs => cs
  | _ => []
  end.

Definition isElement (n : node) : bool :=
  match n with
  | Element _ _ => true
  | _ => false
  end.

(** [Element.children]: the child nodes that are elements. *)
Definition children (n : node) : list node :=
  List.filter isElement (childNodes n).

(** [Element.tagName] of an HTML element, the upper-cased name;
    undefined on other nodes.  The parser gives HTML elements lower-case
    local names, which is what type selectors are compared with. *)
Definition tagName (n : node) : option jsstring :=
  match n with
  | Element name _ => Some (map upper name)
  | _ => None
  end.

(** The concatenated data of the Text nodes of a subtree, in tree order. *)
Fixpoint descendantText (n : node) : jsstring :=
  match n with
  | Text d => d
  | Comment _ => []
  | Element _ cs => flat_map descendantText cs
  end.

(** [Node.textContent]. *)
Definition textContent (n : node) : option jsstring :=
  match n with
  | Text d => Some d
  | Comment d => Some d
  | Element _ cs => Some (flat_map descendantText cs)
  end.

(** The proper descendants of a node, in document order. *)
Fixpoint descendants (n : node) : list node :=
  match n with
  | Element _ cs => flat_map (fun c => c :: descendants c) cs
  | _ => []
  end.

(** A selector list of type selectors, such as ['th, td']. *)
Definition selector := list jsstring.

Definition matchesSelector (sel : selector) (n : node) : bool :=
  match n with
  | Element name _ => existsb (fun t => bool_decide (t = name)) sel
  | _ => false
  end.

Definition querySelectorAll (sel : selector) (n : node) : list node :=
  List.filter (matchesSelector sel) (descendants n).

Definition querySelector (sel : selector) (n : node) : option node :=
  head (querySelectorAll sel n).

(** [cell.textContent?.trim() || '']. *)
Definition trimmedText (n : node) : jsstring :=
  orEmpty (option_map trim (textContent n)).

(** ** Exceptions

    Reading a property of [undefined] throws a [TypeError]; a [throw]
    statement raises an [Error] with a message. *)

Inductive exn : Type :=
| TypeError
| Error (message : jsstring).

Inductive result (A : Type) : Type :=
| Ok (a : A)
| Throw (e : exn).
Arguments Ok {A} a.
Arguments Throw {A} e.

#[global] Instance result_ret : MRet result := fun A a => Ok a.
#[global] Instance result_bind : MBind result := fun A B k r =>
  match r with
  | Ok a => k a
  | Throw e => Throw e
  end.

(** [xs[i]] followed by a property access: a [TypeError] when the index
    is out of range. *)
Definition item {A} (xs : list A) (i : nat) : result A :=
  match nth_error xs i with
  | Some x => Ok x
  | None => Throw TypeError
  end.

(** ** Strategy A: the Turndown rules *)

Module TurndownRules.

(** The cells of a row: [Array.from(row.querySelectorAll('th, td'))
    .map((cell) => cell.textContent?.trim() || '')]. *)
Definition rowCells (row : node) : list jsstring :=
  map trimmedText (querySelectorAll [js "th"; js "td"] row).

(** The text one pass of the loop appends: a line feed, then
    [| ${rowCells.join(' | ')} |]. *)
Definition rowLine (row : node) : jsstring :=
  nl ++ js "| " ++ join (js " | ") (rowCells row) ++ js " |".

(** [for (let i = 1; i < rows.length; i++)]: [count] passes of the
    body, [rows.length - 1] of them when started at [i = 1]. *)
Fixpoint rowLoop (rows : list node) (i count : nat) (markdown : jsstring)
  : result jsstring :=
  match count with
  | O => Ok markdown
  | S count' =>
      row ← item rows i;
      rowLoop rows (S i) count' (markdown ++ rowLine row)
  end.

(** The [replacement] function of the rule registered for ['table']. *)
Definition table_replacement (content : jsstring) (n : node)
  : result jsstring :=
  let rows := querySelectorAll [js "tr"] n in
  if Nat.eqb (length rows) 0 then Ok []
  else
    headerRow ← item rows 0;
    let headerCells := rowCells headerRow in
    let separator := join (js "|") (map (fun _ => js "---") headerCells) in
    let markdown :=
      nl ++ js "| " ++ join (js " | ") headerCells ++ js " |" ++ nl
         ++ js "|" ++ separator ++ js "|" in
    markdown ← rowLoop rows 1 (length rows - 1) markdown;
    Ok (markdown ++ nl).

(** The callback of [items.forEach] in the ['dl'] rule; the state is
    the pair of the two variables it assigns, [markdown] and
    [currentDt]. *)
Definition dl_step (st : jsstring * jsstring) (it : node)
  : jsstring * jsstring :=
  let '(markdown, currentDt) := st in
  if bool_decide (tagName it = Some (js "DT")) then
    let currentDt := trimmedText it in
    if truthy currentDt
    then (markdown ++ js "**" ++ currentDt ++ js ":**", currentDt)
    else (markdown, currentDt)
  else if bool_decide (tagName it = Some (js "DD")) then
    let ddContent := trimmedText it in
    if truthy ddContent
    then (markdown ++ js " " ++ ddContent ++ nl, currentDt)
    else (markdown, currentDt)
  else (markdown, currentDt).

(** The [replacement] function of the rule registered for ['dl']. *)
Definition dl_replacement (content : jsstring) (n : node) : jsstring :=
  let items := children n in
  let '(markdown, _) := fold_left dl_step items (nl ++ nl, []) in
  markdown ++ nl.

End TurndownRules.

(** ** Strategy B: the NodeHtmlMarkdown translator table *)

Module NodeHtmlMarkdown.

(** What a [postprocess] hook is given: the node and the text rendered
    for it by default. *)
Record TranslatorContext : Type := {
  ctx_node : node;
  ctx_content : jsstring
}.

(** The rendering directives of one tag, each possibly left out. *)
Record TranslatorConfig : Type := {
  prefix : option jsstring;
  postfix : option jsstring;
  ignore : option bool;
  preserveWhitespace : option bool;
  surroundingNewlines : option bool;
  postprocess : option (TranslatorContext -> jsstring)
}.

Definition dl_translator : TranslatorConfig :=
  {| prefix := None; postfix := None; ignore := None;
     preserveWhitespace := Some false; surroundingNewlines := Some true;
     postprocess := None |}.

Definition dt_translator : TranslatorConfig :=
  {| prefix := Some (js "**"); postfix := Some (js ":** "); ignore := None;
     preserveWhitespace := None; surroundingNewlines := Some false;
     postprocess := None |}.

Definition dd_translator : TranslatorConfig :=
  {| prefix := None; postfix := Some nl; ignore := None;
     preserveWhitespace := None; surroundingNewlines := Some false;
     postprocess := None |}.

(** The [postprocess] hook of the [Head] translator. *)
Definition Head_postprocess (ctx : TranslatorContext) : jsstring :=
  match querySelector [js "title"] (ctx_node ctx) with
  | Some titleNode => orEmpty (textContent titleNode)
  | None => []
  end.

Definition Head_translator : TranslatorConfig :=
  {| prefix := None; postfix := Some nl; ignore := Some false;
     preserveWhitespace := None; surroundingNewlines := Some true;
     postprocess := Some Head_postprocess |}.

(** [{ ignore: true }], assigned to [Header], [Footer] and [Nav]. *)
Definition ignore_translator : TranslatorConfig :=
  {| prefix := None; postfix := None; ignore := Some true;
     preserveWhitespace := None; surroundingNewlines := None;
     postprocess := None |}.

(** The object literal bound to [customTranslators]. *)
Definition customTranslators_literal : gmap jsstring TranslatorConfig :=
  <[js "dl" := dl_translator]>
  (<[js "dt" := dt_translator]>
  (<[js "dd" := dd_translator]>
  (<[js "Head" := Head_translator]> ∅))).

End NodeHtmlMarkdown.

(** ** Objects, the heap and the outside world

    Each helper allocates its converter configuration with [new] or an
    object literal and then mutates it.  The heap is the list of the
    objects allocated so far, an address being an index into it; the
    trace records the requests sent to the network and to the browser. *)

Module Import World.

Record TurndownOptions : Type := {
  headingStyle : jsstring
}.

Record Rule : Type := {
  filter : jsstring;
  replacement : jsstring -> node -> result jsstring
}.

(** A Turndown service, as far as the source configures it: the options
    given to the constructor, the rules added and the filters removed,
    the latest first. *)
Record TurndownService : Type := {
  options : TurndownOptions;
  rules : list (jsstring * Rule);
  removed : list jsstring
}.

Inductive object : Type :=
| TurndownObj (s : TurndownService)
| TranslatorsObj (t : gmap jsstring NodeHtmlMarkdown.TranslatorConfig).

Inductive io : Type :=
| AxiosGet (url : jsstring)
| BrowserGoto (url : jsstring).

Record world : Type := {
  heap : list object;
  trace : list io
}.

Definition M (A : Type) : Type := world -> result A * world.

#[global] Instance M_ret : MRet M := fun A a w => (Ok a, w).
#[global] Instance M_bind : MBind M := fun A B k m w =>
  match m w with
  | (Ok a, w') => k a w'
  | (Throw e, w') => (Throw e, w')
  end.

Definition throw {A} (e : exn) : M A := fun w => (Throw e, w).

Definition lift {A} (r : result A) : M A := fun w => (r, w).

Definition emit (e : io) : M unit := fun w =>
  (Ok tt, {| heap := heap w; trace := trace w ++ [e] |}).

Definition alloc (o : object) : M nat := fun w =>
  (Ok (length (heap w)), {| heap := heap w ++ [o]; trace := trace w |}).

Definition read (a : nat) : M object := fun w =>
  match heap w !! a with
  | Some o => (Ok o, w)
  | None => (Throw TypeError, w)
  end.

Definition write (a : nat) (o : object) : M unit := fun w =>
  (Ok tt, {| heap := <[a := o]> (heap w); trace := trace w |}).

End World.

(** ** The server *)

Module Server.

Import NodeHtmlMarkdown.

(** A value a tool argument can hold.  Numbers, arrays and objects are
    carried with the string [String(v)] yields for them. *)
Inductive jsvalue : Type :=
| VUndefined
| VNull
| VBoolean (b : bool)
| VString (s : jsstring)
| VOther (shown : jsstring).

(** [String(v)]. *)
Definition ToString (v : jsvalue) : jsstring :=
  match v with
  | VUndefined => js "undefined"
  | VNull => js "null"
  | VBoolean true => js "true"
  | VBoolean false => js "false"
  | VString s => s
  | VOther shown => shown
  end.

(** [request.params]. *)
Record CallToolRequest : Type := {
  name : jsstring;
  arguments : option (gmap jsstring jsvalue)
}.

(** [request.params.arguments?.url]. *)
Definition arguments_url (request : CallToolRequest) : jsvalue :=
  match arguments request with
  | None => VUndefined
  | Some args => default VUndefined (args !! js "url")
  end.

(** What the handler returns: [{ content: [{ type: "text", text }] }]. *)
Record ToolResult : Type := {
  content_text : jsstring
}.

(** The helper a [case] of the handler calls, with its arguments; a
    [mainOnly] left out of the call is [None]. *)
Inductive call : Type :=
| CallGetRawTextString (url : jsstring)
| CallGetHtmlString (url : jsstring)
| CallGetMarkdownStringFromHtmlByNHM (url : jsstring) (mainOnly : option bool)
| CallGetMarkdownStringFromHtmlByTD (url : jsstring) (mainOnly : option bool).

(** The guard and the [switch] of the handler. *)
Definition dispatch (request : CallToolRequest) : result call :=
  let url := ToString (arguments_url request) in
  if negb (truthy url) then Throw (Error (js "url is required !"))
  else if bool_decide (name request = js "get_raw_text")
  then Ok (CallGetRawTextString url)
  else if bool_decide (name request = js "get_rendered_html")
  then Ok (CallGetHtmlString url)
  else if bool_decide (name request = js "get_markdown")
  then Ok (CallGetMarkdownStringFromHtmlByNHM url None)
  else if bool_decide (name request = js "get_markdown_summary")
  then Ok (CallGetMarkdownStringFromHtmlByTD url (Some true))
  else Throw (Error (js "Unknown tool")).

(** [mainOnly: boolean = false]. *)
Definition defaultFalse (mainOnly : option bool) : bool :=
  default false mainOnly.

Section Helpers.

(** The collaborators outside the repository: the network behind
    [axios.get], the browser behind [page.goto] and [page.content], and
    the rendering entry points of the two libraries. *)
Variable axios_get : jsstring -> result jsstring.
Variable page_content : jsstring -> result jsstring.
Variable turndown : TurndownService -> jsstring -> result jsstring.
Variable translate :
  jsstring -> gmap jsstring TranslatorConfig -> result jsstring.

Definition getRawTextString (request_url : jsstring) : M jsstring :=
  emit (AxiosGet request_url);;
  lift (axios_get request_url).

(** Launching the browser, opening a page, navigating to the address
    and reading the page's content are one request to the outside world;
    closing the browser in [finally] changes neither the result nor the
    trace. *)
Definition getHtmlString (request_url : jsstring) : M jsstring :=
  emit (BrowserGoto request_url);;
  lift (page_content request_url).

(** [new Turndown(options)]. *)
Definition newTurndown (opts : TurndownOptions) : M nat :=
  alloc (TurndownObj {| options := opts; rules := []; removed := [] |}).

(** [turndownService.remove(filter)]. *)
Definition remove (svc : nat) (f : jsstring) : M unit :=
  o ← read svc;
  match o with
  | TurndownObj s =>
      write svc (TurndownObj {| options := options s; rules := rules s;
                                removed := f :: removed s |})
  | _ => throw TypeError
  end.

(** [turndownService.addRule(key, rule)]. *)
Definition addRule (svc : nat) (key : jsstring) (r : Rule) : M unit :=
  o ← read svc;
  match o with
  | TurndownObj s =>
      write svc (TurndownObj {| options := options s;
                                rules := (key, r) :: rules s;
                                removed := removed s |})
  | _ => throw TypeError
  end.

(** [turndownService.turndown(htmlString)]. *)
Definition callTurndown (svc : nat) (htmlString : jsstring) : M jsstring :=
  o ← read svc;
  match o with
  | TurndownObj s => lift (turndown s htmlString)
  | _ => throw TypeError
  end.

Definition table_rule : Rule :=
  {| filter := js "table";
     replacement := TurndownRules.table_replacement |}.

Definition dl_rule : Rule :=
  {| filter := js "dl";
     replacement := fun content n =>
       Ok (TurndownRules.dl_replacement content n) |}.

(** The conversion step of [getMarkdownStringFromHtmlByTD]: what it does
    with the fetched [htmlString]. *)
Definition convertByTD (htmlString : jsstring) (mainOnly : bool)
  : M jsstring :=
  turndownService ← newTurndown {| headingStyle := js "atx" |};
  remove turndownService (js "script");;
  remove turndownService (js "style");;
  (if mainOnly then
     remove turndownService (js "header");;
     remove turndownService (js "footer");;
     remove turndownService (js "nav")
   else mret tt);;
  addRule turndownService (js "table") table_rule;;
  addRule turndownService (js "dl") dl_rule;;
  callTurndown turndownService htmlString.

Definition getMarkdownStringFromHtmlByTD
  (request_url : jsstring) (mainOnly : option bool) : M jsstring :=
  let mainOnly := defaultFalse mainOnly in
  htmlString ← getHtmlString request_url;
  convertByTD htmlString mainOnly.

(** [customTranslators.Key = () => ({ ... })]. *)
Definition setTranslator (obj : nat) (key : jsstring)
  (cfg : TranslatorConfig) : M unit :=
  o ← read obj;
  match o with
  | TranslatorsObj t => write obj (TranslatorsObj (<[key := cfg]> t))
  | _ => throw TypeError
  end.

(** [NodeHtmlMarkdown.translate(htmlString, {}, customTranslators)]. *)
Definition callTranslate (htmlString : jsstring) (obj : nat) : M jsstring :=
  o ← read obj;
  match o with
  | TranslatorsObj t => lift (translate htmlString t)
  | _ => throw TypeError
  end.

(** The conversion step of [getMarkdownStringFromHtmlByNHM]. *)
Definition convertByNHM (htmlString : jsstring) (mainOnly : bool)
  : M jsstring :=
  customTranslators ← alloc (TranslatorsObj customTranslators_literal);
  (if mainOnly then
     setTranslator customTranslators (js "Header") ignore_translator;;
     setTranslator customTranslators (js "Footer") ignore_translator;;
     setTranslator customTranslators (js "Nav") ignore_translator
   else mret tt);;
  callTranslate htmlString customTranslators.

Definition getMarkdownStringFromHtmlByNHM
  (request_url : jsstring) (mainOnly : option bool) : M jsstring :=
  let mainOnly := defaultFalse mainOnly in
  htmlString ← getHtmlString request_url;
  convertByNHM htmlString mainOnly.

(** Running the helper a [case] selected. *)
Definition perform (c : call) : M jsstring :=
  match c with
  | CallGetRawTextString url => getRawTextString url
  | CallGetHtmlString url => getHtmlString url
  | CallGetMarkdownStringFromHtmlByNHM url mainOnly =>
      getMarkdownStringFromHtmlByNHM url mainOnly
  | CallGetMarkdownStringFromHtmlByTD url mainOnly =>
      getMarkdownStringFromHtmlByTD url mainOnly
  end.

(** The handler registered for [CallToolRequestSchema]. *)
Definition handler (request : CallToolRequest) : M ToolResult :=
  c ← lift (dispatch request);
  text ← perform c;
  mret {| content_text := text |}.

End Helpers.

End Server.

(** ** Vocabulary of the statements *)

(** [s.split('\n')]: the lines of a text. *)
Fixpoint splitLines (s : jsstring) : list jsstring :=
  match s with
  | [] => [[]]
  | c :: s' =>
      if c =? LF then [] :: splitLines s'
      else match splitLines s' with
           | l :: ls => (c :: l) :: ls
           | [] => [[c]]
           end
  end.

(** A text without a line feed. *)
Definition singleLine (s : jsstring) : bool :=
  forallb (fun c => negb (c =? LF)) s.

(** The line [| c1 | c2 | ... |] of a list of cells. *)
Definition pipeLine (cells : list jsstring) : jsstring :=
  js "| " ++ join (js " | ") cells ++ js " |".

(** The separator line [|---|---|...|] with [w] groups of dashes. *)
Definition dashLine (w : nat) : jsstring :=
  js "|" ++ join (js "|") (repeat (js "---") w) ++ js "|".

(** The lines of a table block: header, separator, one per data row. *)
Definition blockLines (headerRow : node) (dataRows : list node)
  : list jsstring :=
  pipeLine (TurndownRules.rowCells headerRow)
  :: dashLine (length (TurndownRules.rowCells headerRow))
  :: map (fun r => pipeLine (TurndownRules.rowCells r)) dataRows.

(** The table claim as the specification words it, line count included,
    for one table node. *)
Definition table_block_as_specified (n : node) : Prop :=
  forall content headerRow dataRows,
    querySelectorAll [js "tr"] n = headerRow :: dataRows ->
    TurndownRules.table_replacement content n
      = Ok (nl ++ join nl (blockLines headerRow dataRows) ++ nl)
    /\ length (splitLines (join nl (blockLines headerRow dataRows)))
       = (length dataRows + 2)%nat.

(** Helpers to write documents down. *)
Definition el (tag : string) (cs : list node) : node := Element (js tag) cs.
Definition txt (s : string) : node := Text (js s).

(** A table whose only cell holds preformatted text of two lines:
    [<table><tr><td><pre>a(LF)b</pre></td></tr></table>]. *)
Definition table_two_line_cell : node :=
  el "table" [el "tr" [el "td" [el "pre" [Text (js "a" ++ nl ++ js "b")]]]].

(** Scenario 1 of the specification:
    [<table><tr><th>A</th><th>B</th></tr><tr><td>1</td><td>2</td></tr></table>]. *)
Definition table_scenario1 : node :=
  el "table"
    [el "tr" [el "th" [txt "A"]; el "th" [txt "B"]];
     el "tr" [el "td" [txt "1"]; el "td" [txt "2"]]].

(** What one direct child of a [dl] contributes, in the words of the
    specification: a non-empty term gives [**term:**], a non-empty
    definition gives a space, its text and a line feed, anything else
    nothing. *)
Definition dl_emit (child : node) : jsstring :=
  if bool_decide (tagName child = Some (js "DT")) then
    if truthy (trimmedText child)
    then js "**" ++ trimmedText child ++ js ":**"
    else []
  else if bool_decide (tagName child = Some (js "DD")) then
    if truthy (trimmedText child)
    then js " " ++ trimmedText child ++ nl
    else []
  else [].

(** The fragment of a definition list, in the words of the
    specification: the contributions of the direct children, in order,
    between two line feeds and one. *)
Definition dl_fragment (n : node) : jsstring :=
  nl ++ nl ++ flat_map dl_emit (children n) ++ nl.

(** The definition-list half of the shared contract as the specification
    words it, for one [dl] node: a non-empty [dt] anywhere in the list
    yields a [**term:**] marker. *)
Definition dl_marker_as_specified (n : node) : Prop :=
  forall content dt,
    In dt (descendants n) ->
    tagName dt = Some (js "DT") ->
    truthy (trimmedText dt) = true ->
    exists term,
      includes (js "**" ++ term ++ js ":**")
        (TurndownRules.dl_replacement content n) = true.

(** [<dl><div><dt>Term</dt><dd>Def</dd></div></dl>]: the terms grouped
    in a [div], as HTML allows. *)
Definition dl_grouped_terms : node :=
  el "dl" [el "div" [el "dt" [txt "Term"]; el "dd" [txt "Def"]]].

(** Scenario 2: [<dl><dt>Term</dt><dd>Def</dd></dl>]. *)
Definition dl_scenario2 : node :=
  el "dl" [el "dt" [txt "Term"]; el "dd" [txt "Def"]].

(** Scenario 5: [<dl><dt></dt><dd>Def</dd></dl>]. *)
Definition dl_scenario5 : node :=
  el "dl" [el "dt" []; el "dd" [txt "Def"]].

(** [<table><tr><td><script>x()</script>A</td></tr></table>]. *)
Definition table_with_script : node :=
  el "table" [el "tr" [el "td" [el "script" [txt "x()"]; txt "A"]]].

(** [<table><tr><td><nav>Menu</nav></td><td>Body</td></tr></table>]. *)
Definition table_with_nav : node :=
  el "table" [el "tr" [el "td" [el "nav" [txt "Menu"]];
                       el "td" [txt "Body"]]].

(** [<dl><dt>T</dt><dd><style>b{}</style>D</dd></dl>]. *)
Definition dl_with_style : node :=
  el "dl" [el "dt" [txt "T"]; el "dd" [el "style" [txt "b{}"]; txt "D"]].

(** [<head><meta><title>Hi</title><link></head>]. *)
Definition head_with_title : node :=
  el "head" [el "meta" []; el "title" [txt "Hi"]; el "link" []].

(** The service [getMarkdownStringFromHtmlByTD] has built when it calls
    [turndown]. *)
Definition configuredService (mainOnly : bool) : TurndownService :=
  {| options := {| headingStyle := js "atx" |};
     rules := [(js "dl", Server.dl_rule); (js "table", Server.table_rule)];
     removed :=
       (if mainOnly then [js "nav"; js "footer"; js "header"] else [])
       ++ [js "style"; js "script"] |}.

(** The translator table [getMarkdownStringFromHtmlByNHM] has built when
    it calls [translate]. *)
Definition configuredTranslators (mainOnly : bool)
  : gmap jsstring NodeHtmlMarkdown.TranslatorConfig :=
  if mainOnly then
    <[js "Nav" := NodeHtmlMarkdown.ignore_translator]>
    (<[js "Footer" := NodeHtmlMarkdown.ignore_translator]>
    (<[js "Header" := NodeHtmlMarkdown.ignore_translator]>
       NodeHtmlMarkdown.customTranslators_literal))
  else NodeHtmlMarkdown.customTranslators_literal.

(** A tool call that supplies no arguments at all, and one whose
    arguments hold no [url]. *)
Definition call_without_arguments (tool : string) : Server.CallToolRequest :=
  {| Server.name := js tool; Server.arguments := None |}.

Definition call_without_url (tool : string) : Server.CallToolRequest :=
  {| Server.name := js tool; Server.arguments := Some ∅ |}.

Definition call_with_url (tool url : string) : Server.CallToolRequest :=
  {| Server.name := js tool;
     Server.arguments := Some (<[js "url" := Server.VString (js url)]> ∅) |}.

(** A collaborator that answers every request with the text it was
    given, to run the handler on. *)
Definition echo (s : jsstring) : result jsstring := Ok s.

(** ** The tool list

    What the handler registered for [ListToolsRequestSchema] returns. *)

Module ToolList.

Record Property : Type := {
  property_type : jsstring;
  property_description : jsstring
}.

Record InputSchema : Type := {
  type : jsstring;
  properties : list (jsstring * Property);
  required : list jsstring
}.

Record Tool : Type := {
  name : jsstring;
  description : jsstring;
  inputSchema : InputSchema
}.

Definition get_raw_text_tool : Tool :=
  {| name := js "get_raw_text";
     description := js (
       "Retrieves raw text content directly from a URL without " ++
       "browser rendering. Ideal for structured data formats like " ++
       "JSON, XML, CSV, TSV, or plain text files. Best used when " ++
       "fast, direct access to the source content is needed without " ++
       "processing dynamic elements.")%string;
     inputSchema :=
       {| type := js "object";
          properties :=
            [(js "url",
              {| property_type := js "string";
                 property_description := js (
                   "URL of the target resource containing raw text content " ++
                   "(JSON, XML, CSV, TSV, plain text, etc.).")%string |})];
          required := [js "url"] |} |}.

Definition get_rendered_html_tool : Tool :=
  {| name := js "get_rendered_html";
     description := js (
       "Fetches fully rendered HTML content using a headless " ++
       "browser, including JavaScript-generated content. Essential " ++
       "for modern web applications, single-page applications " ++
       "(SPAs), or any content that requires client-side rendering " ++
       "to be complete.")%string;
     inputSchema :=
       {| type := js "object";
          properties :=
            [(js "url",
              {| property_type := js "string";
                 property_description := js (
                   "URL of the target web page that requires JavaScript " ++
                   "execution or dynamic content rendering.")%string |})];
          required := [js "url"] |} |}.

Definition get_markdown_tool : Tool :=
  {| name := js "get_markdown";
     description := js (
       "Converts web page content to well-formatted Markdown, " ++
       "preserving structural elements like tables and definition " ++
       "lists. Recommended as the default tool for web content " ++
       "extraction when a clean, readable text format is needed " ++
       "while maintaining document structure.")%string;
     inputSchema :=
       {| type := js "object";
          properties :=
            [(js "url",
              {| property_type := js "string";
                 property_description := js (
                   "URL of the web page to convert to Markdown format, " ++
                   "supporting various HTML elements and structures.")%string |})];
          required := [js "url"] |} |}.

Definition get_markdown_summary_tool : Tool :=
  {| name := js "get_markdown_summary";
     description := js (
       "Extracts and converts the main content area of a web page " ++
       "to Markdown format, automatically removing navigation " ++
       "menus, headers, footers, and other peripheral content. " ++
       "Perfect for capturing the core content of articles, blog " ++
       "posts, or documentation pages.")%string;
     inputSchema :=
       {| type := js "object";
          properties :=
            [(js "url",
              {| property_type := js "string";
                 property_description := js (
                   "URL of the web page whose main content should be extracted " ++
                   "and converted to Markdown.")%string |})];
          required := [js "url"] |} |}.

(** [tools: [ ... ]]. *)
Definition tools : list Tool :=
  [get_raw_text_tool; get_rendered_html_tool; get_markdown_tool;
   get_markdown_summary_tool].

End ToolList.

(** ** The browser session of [getHtmlString]

    The steps of [getHtmlString] one by one: each request to the browser
    is logged and answered by the environment; the state holds the
    variable [browser] (null until [chromium.launch] has returned) and
    the log. *)

Module Browser.

Definition TIMEOUT : N := 20000.

Inductive event : Type :=
| Launch (args : list jsstring) (headless : bool)
| NewPage
| Goto (url : jsstring) (timeout : N)
| Content
| Close
| ConsoleError (label : jsstring) (error : exn).

(** How the browser answers each request during one call. *)
Record answers : Type := {
  launch : result unit;
  newPage : result unit;
  goto : jsstring -> N -> result unit;
  content : result jsstring;
  close : result unit
}.

Record state : Type := {
  browser : bool;
  log : list event
}.

Definition B (A : Type) : Type := state -> result A * state.

#[global] Instance B_ret : MRet B := fun A a s => (Ok a, s).
#[global] Instance B_bind : MBind B := fun A B k m s =>
  match m s with
  | (Ok a, s') => k a s'
  | (Throw e, s') => (Throw e, s')
  end.

(** One awaited request: it is logged and yields the browser's answer. *)
Definition request {A} (e : event) (answer : result A) : B A := fun s =>
  (answer, {| browser := browser s; log := log s ++ [e] |}).

(** [browser = ...], once [chromium.launch] has returned. *)
Definition setBrowser : B unit := fun s =>
  (Ok tt, {| browser := true; log := log s |}).

(** The test [if (browser)]. *)
Definition getBrowser : B bool := fun s => (Ok (browser s), s).

(** [try { body } finally { finalizer }]: the finalizer runs whatever the
    body did; the body's outcome stands unless the finalizer throws. *)
Definition tryFinally {A} (body : B A) (finalizer : B unit) : B A := fun s =>
  match body s with
  | (r, s1) =>
      match finalizer s1 with
      | (Ok _, s2) => (r, s2)
      | (Throw e, s2) => (Throw e, s2)
      end
  end.

(** [try { body } catch (error) { handler }]. *)
Definition tryCatch {A} (body : B A) (handler : exn -> B A) : B A := fun s =>
  match body s with
  | (Ok a, s1) => (Ok a, s1)
  | (Throw e, s1) => handler e s1
  end.

(** The body of the outer [try]. *)
Definition tryBody (env : answers) (request_url : jsstring) : B jsstring :=
  _ ← request (Launch [js "--single-process"] true) (launch env);
  setBrowser;;
  _ ← request NewPage (newPage env);
  _ ← request (Goto request_url TIMEOUT) (goto env request_url TIMEOUT);
  htmlString ← request Content (content env);
  mret htmlString.

(** The body of the inner [try]: [if (browser) { await browser.close(); }]. *)
Definition closeBrowser (env : answers) : B unit :=
  b ← getBrowser;
  if (b : bool) then request Close (close env) else mret tt.

(** The [finally] block. *)
Definition finallyBlock (env : answers) : B unit :=
  tryCatch (closeBrowser env)
    (fun error => request (ConsoleError (js "error:") error) (Ok tt)).

(** [getHtmlString], from [let browser = null] on; the result and the
    log of the requests it made. *)
Definition getHtmlString (env : answers) (request_url : jsstring)
  : result jsstring * list event :=
  match
    tryFinally (tryBody env request_url) (finallyBlock env)
      {| browser := false; log := [] |}
  with
  | (r, s) => (r, log s)
  end.

(** What the page yields when every step is asked in turn: the answer
    [Server.getHtmlString] takes from its [page_content] collaborator. *)
Definition page_content (env : answers) (request_url : jsstring)
  : result jsstring :=
  _ ← launch env;
  _ ← newPage env;
  _ ← goto env request_url TIMEOUT;
  content env.

End Browser.

(** ** More vocabulary *)

(** A text that does not begin, respectively end, with white space. *)
Definition startsClean (s : jsstring) : bool :=
  match s with
  | [] => true
  | c :: _ => negb (isWhiteSpace c)
  end.

Definition endsClean (s : jsstring) : bool := startsClean (rev s).

(** The names of the advertised tools. *)
Definition advertised : list jsstring := map ToolList.name ToolList.tools.

(** The input and output a call of the handler adds, read off the
    helper the dispatcher selected. *)
Definition requestsOf (c : result Server.call) : list io :=
  match c with
  | Ok (Server.CallGetRawTextString url) => [AxiosGet url]
  | Ok (Server.CallGetHtmlString url) => [BrowserGoto url]
  | Ok (Server.CallGetMarkdownStringFromHtmlByNHM url _) => [BrowserGoto url]
  | Ok (Server.CallGetMarkdownStringFromHtmlByTD url _) => [BrowserGoto url]
  | Throw _ => []
  end.

(** A browser in which every step succeeds, one that cannot be launched
    and one whose page fails to load and which then fails to close. *)
Definition browser_fine : Browser.answers :=
  {| Browser.launch := Ok tt; Browser.newPage := Ok tt;
     Browser.goto := fun _ _ => Ok tt;
     Browser.content := Ok (js "<p>x</p>"); Browser.close := Ok tt |}.

Definition browser_missing : Browser.answers :=
  {| Browser.launch := Throw (Error (js "no browser"));
     Browser.newPage := Ok tt; Browser.goto := fun _ _ => Ok tt;
     Browser.content := Ok []; Browser.close := Ok tt |}.

Definition browser_stuck : Browser.answers :=
  {| Browser.launch := Ok tt; Browser.newPage := Ok tt;
     Browser.goto := fun _ _ => Throw (Error (js "Timeout 20000ms exceeded"));
     Browser.content := Ok [];
     Browser.close := Throw (Error (js "already gone")) |}.

(** [<table><tbody><tr><th>A</th></tr><tr><td>1</td></tr></tbody></table>]
    and the same rows without the [tbody]. *)
Definition table_rows_AB : list node :=
  [el "tr" [el "th" [txt "A"]]; el "tr" [el "td" [txt "1"]]].

(** A table with a table in its second cell. *)
Definition table_nested : node :=
  el "table"
    [el "tr" [el "td" [txt "a"];
              el "td" [el "table" [el "tr" [el "td" [txt "in"]]]]]].

(** The handler's answer for the text a helper returned. *)
Definition textResult (r : result jsstring) : result Server.ToolResult :=
  match r with
  | Ok text => Ok {| Server.content_text := text |}
  | Throw e => Throw e
  end.

(** The text a call of the handler yields, as a function of what the
    collaborators answer, with no heap. *)
Definition outcomeOf
  (axios_get page_content : jsstring -> result jsstring)
  (turndown : TurndownService -> jsstring -> result jsstring)
  (translate : jsstring -> gmap jsstring NodeHtmlMarkdown.TranslatorConfig
               -> result jsstring)
  (c : result Server.call) : result jsstring :=
  match c with
  | Throw e => Throw e
  | Ok (Server.CallGetRawTextString url) => axios_get url
  | Ok (Server.CallGetHtmlString url) => page_content url
  | Ok (Server.CallGetMarkdownStringFromHtmlByNHM url mainOnly) =>
      htmlString ← page_content url;
      translate htmlString (configuredTranslators (Server.defaultFalse mainOnly))
  | Ok (Server.CallGetMarkdownStringFromHtmlByTD url mainOnly) =>
      htmlString ← page_content url;
      turndown (configuredService (Server.defaultFalse mainOnly)) htmlString
  end.

(** The objects a call of the handler allocates. *)
Definition objectsOf (page_content : jsstring -> result jsstring)
  (c : result Server.call) : list object :=
  match c with
  | Ok (Server.CallGetMarkdownStringFromHtmlByNHM url mainOnly) =>
      match page_content url with
      | Ok _ => [TranslatorsObj
                   (configuredTranslators (Server.defaultFalse mainOnly))]
      | Throw _ => []
      end
  | Ok (Server.CallGetMarkdownStringFromHtmlByTD url mainOnly) =>
      match page_content url with
      | Ok _ => [TurndownObj
                   (configuredService (Server.defaultFalse mainOnly))]
      | Throw _ => []
      end
  | _ => []
  end.

(** A page that cannot be rendered. *)
Definition unreachable (url : jsstring) : result jsstring :=
  Throw (Error (js "net::ERR_NAME_NOT_RESOLVED")).



(** ** The primitives on examples *)

Example trim_strips_both_ends :
  trim ([0x20; 0x09; 0xA0] ++ js "a  b" ++ [0x0A; 0xFEFF; 0x20]) = js "a  b".
Proof. reflexivity. Qed.

Example trim_keeps_inner_line_feed :
  trim (nl ++ js "a" ++ nl ++ js "b" ++ nl) = js "a" ++ nl ++ js "b".
Proof. reflexivity. Qed.

Example join_three : join (js " | ") [js "a"; []; js "c"] = js "a |  | c".
Proof. reflexivity. Qed.

Example join_none : join (js "|") [] = [].
Proof. reflexivity. Qed.

Example splitLines_three :
  splitLines (nl ++ js "a" ++ nl) = [[]; js "a"; []].
Proof. reflexivity. Qed.

Example tagName_upper : tagName (el "dt" []) = Some (js "DT").
Proof. reflexivity. Qed.

Example textContent_skips_comments :
  textContent (el "td" [txt "a"; Comment (js "no"); el "b" [txt "c"]])
  = Some (js "ac").
Proof. reflexivity. Qed.

Example children_are_elements :
  children (el "dl" [txt "x"; el "dt" []; Comment (js "c"); el "dd" []])
  = [el "dt" []; el "dd" []].
Proof. reflexivity. Qed.

Example querySelectorAll_document_order :
  querySelectorAll [js "th"; js "td"]
    (el "tr" [el "td" [el "table" [el "tr" [el "th" [txt "in"]]]];
              el "th" [txt "out"]])
  = [el "td" [el "table" [el "tr" [el "th" [txt "in"]]]];
     el "th" [txt "in"];
     el "th" [txt "out"]].
Proof. reflexivity. Qed.

Example table_rule_scenario1 :
  TurndownRules.table_replacement [] table_scenario1
  = Ok (nl ++ js "| A | B |" ++ nl ++ js "|---|---|" ++ nl
           ++ js "| 1 | 2 |" ++ nl).
Proof. reflexivity. Qed.

Example table_rule_ragged_rows :
  TurndownRules.table_replacement []
    (el "table" [el "tr" [el "th" [txt "A"]];
                 el "tr" [el "td" [txt "1"]; el "td" [txt "2"]; el "td" []]])
  = Ok (nl ++ js "| A |" ++ nl ++ js "|---|" ++ nl ++ js "| 1 | 2 |  |" ++ nl).
Proof. reflexivity. Qed.

Example dl_rule_scenario2 :
  TurndownRules.dl_replacement [] dl_scenario2
  = nl ++ nl ++ js "**Term:** Def" ++ nl ++ nl.
Proof. reflexivity. Qed.

Example dl_rule_dangling_term :
  TurndownRules.dl_replacement []
    (el "dl" [el "dt" [txt "A"]; el "dt" [txt "B"]; el "dd" [txt "b"]])
  = nl ++ nl ++ js "**A:****B:** b" ++ nl ++ nl.
Proof. reflexivity. Qed.

Example dispatch_rejects_empty_string :
  Server.dispatch (call_with_url "get_markdown" "")
  = Throw (Error (js "url is required !")).
Proof. reflexivity. Qed.

Example dispatch_unknown_tool :
  Server.dispatch (call_with_url "get_pdf" "http://a")
  = Throw (Error (js "Unknown tool")).
Proof. reflexivity. Qed.

(** ** Strings and lists *)

Lemma join_cons sep x xs :
  join sep (x :: xs) = x ++ flat_map (fun y => sep ++ y) xs.
Proof.
  revert x. induction xs as [|y ys IH]; intros x.
  - simpl. by rewrite app_nil_r.
  - change (join sep (x :: y :: ys)) with (x ++ sep ++ join sep (y :: ys)).
    rewrite IH. simpl. by rewrite <- !app_assoc.
Qed.

Lemma map_const_repeat {A B} (b : B) (xs : list A) :
  map (fun _ => b) xs = repeat b (length xs).
Proof. induction xs; simpl; congruence. Qed.

Lemma flat_map_map {A B C} (f : B -> list C) (g : A -> B) (xs : list A) :
  flat_map f (map g xs) = flat_map (fun x => f (g x)) xs.
Proof. induction xs; simpl; congruence. Qed.

Lemma singleLine_app a b :
  singleLine (a ++ b) = singleLine a && singleLine b.
Proof. apply forallb_app. Qed.

Lemma singleLine_join sep parts :
  singleLine sep = true ->
  forallb singleLine parts = true ->
  singleLine (join sep parts) = true.
Proof.
  intros Hsep. induction parts as [|p [|q rest] IH]; simpl; intros H.
  - done.
  - by destruct (singleLine p).
  - apply andb_prop in H as [Hp H].
    rewrite !singleLine_app, Hp, Hsep. simpl. by apply IH.
Qed.

Lemma singleLine_pipeLine cells :
  forallb singleLine cells = true -> singleLine (pipeLine cells) = true.
Proof.
  intros H. unfold pipeLine. rewrite !singleLine_app.
  rewrite singleLine_join by done. done.
Qed.

Lemma singleLine_dashLine w : singleLine (dashLine w) = true.
Proof.
  unfold dashLine. rewrite !singleLine_app.
  rewrite singleLine_join; [done | done |].
  induction w; simpl; auto.
Qed.

Lemma splitLines_last a :
  singleLine a = true -> splitLines a = [a].
Proof.
  induction a as [|c a IH]; simpl; [done|].
  intros H. apply andb_prop in H as [Hc Ha].
  destruct (c =? LF); [done|]. by rewrite IH.
Qed.

Lemma splitLines_line a b :
  singleLine a = true -> splitLines (a ++ nl ++ b) = a :: splitLines b.
Proof.
  induction a as [|c a IH]; intros H; [done|].
  cbn [singleLine forallb] in H. apply andb_prop in H as [Hc Ha].
  rewrite <- app_comm_cons. cbn [splitLines].
  destruct (c =? LF); [done|]. by rewrite IH.
Qed.

Lemma splitLines_join (ls : list jsstring) :
  ls <> [] ->
  forallb singleLine ls = true ->
  splitLines (join nl ls) = ls.
Proof.
  induction ls as [|l [|l' rest] IH]; intros Hne H.
  - done.
  - simpl in *. apply splitLines_last. by destruct (singleLine l).
  - change (join nl (l :: l' :: rest)) with (l ++ nl ++ join nl (l' :: rest)).
    simpl in H. apply andb_prop in H as [Hl H].
    rewrite splitLines_line by done. f_equal. by apply IH.
Qed.

Lemma includes_app p a b : includes p (a ++ p ++ b) = true.
Proof.
  assert (Hpre : forall q c, startsWith q (q ++ c) = true).
  { induction q as [|x q IH]; intros c; simpl; [done|].
    by rewrite N.eqb_refl, IH. }
  assert (Hun : forall s, includes p s
            = startsWith p s
              || match s with [] => false | _ :: s' => includes p s' end)
    by (by intros []).
  induction a as [|x a IH].
  - rewrite Hun. cbn [app]. by rewrite Hpre.
  - rewrite Hun, <- app_comm_cons, IH. apply orb_true_r.
Qed.

(** ** The table rule *)

Section TableRule.
Import TurndownRules.

Lemma item_middle {A} (pre : list A) x rest :
  item (pre ++ x :: rest) (length pre) = Ok x.
Proof.
  unfold item. rewrite nth_error_app2 by lia.
  by rewrite Nat.sub_diag.
Qed.

Lemma rowLoop_rows rest : forall pre markdown,
  rowLoop (pre ++ rest) (length pre) (length rest) markdown
  = Ok (markdown ++ flat_map rowLine rest).
Proof.
  induction rest as [|r rest IH]; intros pre markdown; simpl.
  - by rewrite app_nil_r.
  - rewrite item_middle. simpl.
    replace (pre ++ r :: rest) with ((pre ++ [r]) ++ rest)
      by (by rewrite <- app_assoc).
    replace (S (length pre)) with (length (pre ++ [r]))
      by (rewrite length_app; simpl; lia).
    rewrite IH. by rewrite <- app_assoc.
Qed.

Lemma table_replacement_rows content n headerRow dataRows :
  querySelectorAll [js "tr"] n = headerRow :: dataRows ->
  table_replacement content n
  = Ok (nl ++ join nl (blockLines headerRow dataRows) ++ nl).
Proof.
  intros Hrows. unfold table_replacement. rewrite Hrows.
  cbn [length Nat.eqb item nth_error mbind result_bind].
  replace (S (length dataRows) - 1)%nat with (length dataRows) by lia.
  pose proof (rowLoop_rows dataRows [headerRow]) as Hloop.
  cbn [app length] in Hloop. rewrite Hloop.
  cbn [mbind result_bind]. f_equal.
  unfold blockLines. rewrite !join_cons. cbn [flat_map].
  rewrite map_const_repeat. unfold pipeLine, dashLine, rowLine.
  rewrite flat_map_map. rewrite <- !app_assoc. reflexivity.
Qed.

End TableRule.

(** C1, as stated, fails: the table rule trims a cell's text but keeps a
    line feed inside it, so a header row alone can take three lines
    where the claim counts two. *)
Lemma table_block_as_specified_fails :
  ~ table_block_as_specified table_two_line_cell.
Proof.
  intros H.
  destruct (H [] (el "tr" [el "td" [el "pre" [Text (js "a" ++ nl ++ js "b")]]])
              [] eq_refl) as [_ Hlines].
  vm_compute in Hlines. discriminate.
Qed.

(** C1 (amended): for a table node whose [tr] descendants are, in
    document order, [headerRow :: dataRows], the table rule returns a
    line feed, the header line [| c1 | ... |] of the trimmed texts of the
    header row's th/td cells, a separator line with one [---] group per
    header cell, one line [| v1 | ... |] per data row from that row's own
    cells, and a final line feed; when no trimmed cell text contains a
    line feed, the block is exactly these n+2 lines. *)
Theorem table_block content n headerRow dataRows :
  querySelectorAll [js "tr"] n = headerRow :: dataRows ->
  TurndownRules.table_replacement content n
    = Ok (nl ++ join nl (blockLines headerRow dataRows) ++ nl)
  /\ (forallb (fun r => forallb singleLine (TurndownRules.rowCells r))
        (headerRow :: dataRows) = true ->
      splitLines (join nl (blockLines headerRow dataRows))
        = blockLines headerRow dataRows
      /\ length (splitLines (join nl (blockLines headerRow dataRows)))
         = (length dataRows + 2)%nat).
Proof.
  intros Hrows. split; [by apply table_replacement_rows|].
  intros Hcells.
  assert (Hsplit : splitLines (join nl (blockLines headerRow dataRows))
                   = blockLines headerRow dataRows).
  { apply splitLines_join; [done|].
    cbn [forallb] in Hcells. apply andb_prop in Hcells as [Hh Hd].
    unfold blockLines. cbn [forallb].
    rewrite singleLine_pipeLine by done. rewrite singleLine_dashLine.
    cbn [andb]. rewrite forallb_forall in *. intros l Hl.
    apply in_map_iff in Hl as (r & <- & Hr).
    apply singleLine_pipeLine, Hd, Hr. }
  split; [done|]. rewrite Hsplit. unfold blockLines.
  cbn [length]. rewrite length_map. lia.
Qed.

Lemma table_block_witness :
  TurndownRules.table_replacement [] table_scenario1
    = Ok (nl ++ js "| A | B |" ++ nl ++ js "|---|---|" ++ nl
             ++ js "| 1 | 2 |" ++ nl)
  /\ length (splitLines (js "| A | B |" ++ nl ++ js "|---|---|" ++ nl
                            ++ js "| 1 | 2 |")) = 3%nat.
Proof.
  destruct (table_block [] table_scenario1
              (el "tr" [el "th" [txt "A"]; el "th" [txt "B"]])
              [el "tr" [el "td" [txt "1"]; el "td" [txt "2"]]]
              eq_refl) as [Hout Hlines].
  destruct (Hlines eq_refl) as [_ Hcount].
  split; [exact Hout | exact Hcount].
Defined.

(** ** The definition-list rule *)

Section DlRule.
Import TurndownRules.

Lemma dl_step_emit markdown currentDt child :
  (dl_step (markdown, currentDt) child).1 = markdown ++ dl_emit child.
Proof.
  unfold dl_step, dl_emit.
  repeat case_bool_decide; destruct (truthy (trimmedText child)); simpl;
    by rewrite ?app_nil_r.
Qed.

Lemma dl_fold items : forall markdown currentDt,
  (fold_left dl_step items (markdown, currentDt)).1
  = markdown ++ flat_map dl_emit items.
Proof.
  induction items as [|child items IH]; intros markdown currentDt;
    cbn [fold_left flat_map].
  - by rewrite app_nil_r.
  - destruct (dl_step (markdown, currentDt) child) as [markdown' currentDt']
      eqn:Hstep.
    rewrite IH. pose proof (dl_step_emit markdown currentDt child) as H.
    rewrite Hstep in H. simpl in H. rewrite H. by rewrite <- app_assoc.
Qed.

Lemma dl_replacement_fragment content n :
  dl_replacement content n = dl_fragment n.
Proof.
  unfold dl_replacement, dl_fragment.
  pose proof (dl_fold (children n) (nl ++ nl) []) as H.
  destruct (fold_left dl_step (children n) (nl ++ nl, [])) as [markdown cur].
  simpl in H. rewrite H. reflexivity.
Qed.

Lemma dl_emit_term child :
  tagName child = Some (js "DT") ->
  truthy (trimmedText child) = true ->
  dl_emit child = js "**" ++ trimmedText child ++ js ":**".
Proof.
  intros Htag Htxt. unfold dl_emit.
  rewrite bool_decide_eq_true_2 by done. by rewrite Htxt.
Qed.

Lemma dl_emit_definition child :
  tagName child = Some (js "DD") ->
  truthy (trimmedText child) = true ->
  dl_emit child = js " " ++ trimmedText child ++ nl.
Proof.
  intros Htag Htxt. unfold dl_emit.
  rewrite bool_decide_eq_false_2 by (rewrite Htag; discriminate).
  rewrite bool_decide_eq_true_2 by done. by rewrite Htxt.
Qed.

Lemma dl_emit_nothing child :
  truthy (trimmedText child) = false
  \/ (tagName child <> Some (js "DT") /\ tagName child <> Some (js "DD")) ->
  dl_emit child = [].
Proof.
  unfold dl_emit. intros [Htxt | [Hdt Hdd]].
  - rewrite Htxt. by repeat case_bool_decide.
  - by rewrite !bool_decide_eq_false_2.
Qed.

End DlRule.

(** C2: the [dl] rule looks at the direct element children of the node
    only, in order; a [dt] child with non-empty trimmed text adds
    [**term:**] and nothing after it, a [dd] child with non-empty trimmed
    text adds a space, the text and a line feed, every other child adds
    nothing, and the whole is put between two line feeds in front and
    one behind. *)
Theorem dl_direct_children_fold content n :
  TurndownRules.dl_replacement content n
    = nl ++ nl ++ flat_map dl_emit (children n) ++ nl
  /\ children n = List.filter isElement (childNodes n)
  /\ (forall child,
        (tagName child = Some (js "DT") /\ truthy (trimmedText child) = true
         -> dl_emit child = js "**" ++ trimmedText child ++ js ":**")
        /\ (tagName child = Some (js "DD") /\ truthy (trimmedText child) = true
            -> dl_emit child = js " " ++ trimmedText child ++ nl)
        /\ (truthy (trimmedText child) = false
            \/ (tagName child <> Some (js "DT")
                /\ tagName child <> Some (js "DD"))
            -> dl_emit child = [])).
Proof.
  split; [apply dl_replacement_fragment|]. split; [done|].
  intros child. split; [|split].
  - intros [? ?]. by apply dl_emit_term.
  - intros [? ?]. by apply dl_emit_definition.
  - apply dl_emit_nothing.
Qed.

Lemma dl_direct_children_fold_witness :
  TurndownRules.dl_replacement [] dl_scenario2
    = nl ++ nl ++ js "**Term:** Def" ++ nl ++ nl
  /\ dl_emit (el "dt" [txt " Term "]) = js "**Term:**"
  /\ dl_emit (el "dd" [txt "Def"]) = js " Def" ++ nl
  /\ dl_emit (el "p" [txt "Def"]) = []
  /\ dl_emit (el "dt" [txt "  "]) = [].
Proof.
  destruct (dl_direct_children_fold [] dl_scenario2) as (Hout & _ & Hemit).
  split; [exact Hout|].
  split; [| split; [| split]].
  - exact (proj1 (Hemit (el "dt" [txt " Term "])) (conj eq_refl eq_refl)).
  - exact (proj1 (proj2 (Hemit (el "dd" [txt "Def"])))
             (conj eq_refl eq_refl)).
  - refine (proj2 (proj2 (Hemit (el "p" [txt "Def"])))
              (or_intror (conj _ _))); discriminate.
  - exact (proj2 (proj2 (Hemit (el "dt" [txt "  "]))) (or_introl eq_refl)).
Defined.

(** The Turndown rule on an empty term: a definition list whose element
    children are a [dt] with empty trimmed text followed by a [dd] with
    text [Def] yields only the line [ Def] inside the framing line
    feeds, and no [**:**] marker. *)
Theorem dl_empty_term content n dt dd :
  children n = [dt; dd] ->
  tagName dt = Some (js "DT") ->
  trimmedText dt = [] ->
  tagName dd = Some (js "DD") ->
  trimmedText dd = js "Def" ->
  TurndownRules.dl_replacement content n
    = nl ++ nl ++ js " Def" ++ nl ++ nl
  /\ includes (js "**:**") (TurndownRules.dl_replacement content n) = false.
Proof.
  intros Hch Hdt Hdtxt Hdd Hddtxt.
  assert (Hout : TurndownRules.dl_replacement content n
                 = nl ++ nl ++ js " Def" ++ nl ++ nl).
  { rewrite dl_replacement_fragment. unfold dl_fragment. rewrite Hch.
    cbn [flat_map]. rewrite (dl_emit_nothing dt) by (left; by rewrite Hdtxt).
    rewrite (dl_emit_definition dd) by (by rewrite ?Hddtxt).
    rewrite Hddtxt. reflexivity. }
  split; [exact Hout|]. rewrite Hout. reflexivity.
Qed.

Lemma dl_empty_term_witness :
  TurndownRules.dl_replacement [] dl_scenario5
    = nl ++ nl ++ js " Def" ++ nl ++ nl
  /\ includes (js "**:**") (TurndownRules.dl_replacement [] dl_scenario5)
     = false.
Proof.
  exact (dl_empty_term [] dl_scenario5 (el "dt" []) (el "dd" [txt "Def"])
           eq_refl eq_refl eq_refl eq_refl eq_refl).
Defined.

Lemma flat_map_nothing {A B} (f : A -> list B) (xs : list A) :
  (forall x, In x xs -> f x = []) -> flat_map f xs = [].
Proof.
  induction xs as [|x xs IH]; intros H; simpl; [done|].
  rewrite (H x) by (by left). apply IH. intros y Hy. apply H. by right.
Qed.

Lemma table_replacement_total content n :
  exists markdown, TurndownRules.table_replacement content n = Ok markdown.
Proof.
  destruct (querySelectorAll [js "tr"] n) as [|headerRow dataRows] eqn:Hrows.
  - exists []. unfold TurndownRules.table_replacement. by rewrite Hrows.
  - eexists. by apply table_replacement_rows.
Qed.

(** C5: a table node without any [tr] descendant makes the table rule
    return the empty string; the table rule returns a string, never an
    exception, on every node; and a definition list none of whose
    children yields text gives just the framing line feeds. *)
Theorem malformed_fragments_degrade :
  (forall content n,
     querySelectorAll [js "tr"] n = [] ->
     TurndownRules.table_replacement content n = Ok [])
  /\ (forall content n,
        exists markdown,
          TurndownRules.table_replacement content n = Ok markdown)
  /\ (forall content n,
        (forall child, In child (children n) -> dl_emit child = []) ->
        TurndownRules.dl_replacement content n = nl ++ nl ++ nl).
Proof.
  split; [|split].
  - intros content n Hrows. unfold TurndownRules.table_replacement.
    by rewrite Hrows.
  - apply table_replacement_total.
  - intros content n Hnone. rewrite dl_replacement_fragment.
    unfold dl_fragment. by rewrite flat_map_nothing.
Qed.

Lemma malformed_fragments_degrade_witness :
  TurndownRules.table_replacement [] (el "table" []) = Ok []
  /\ TurndownRules.dl_replacement [] (el "dl" [el "dt" []; txt "x"])
     = nl ++ nl ++ nl.
Proof.
  destruct malformed_fragments_degrade as (Htable & _ & Hdl).
  split.
  - exact (Htable [] (el "table" []) eq_refl).
  - apply (Hdl [] (el "dl" [el "dt" []; txt "x"])).
    intros child [<- | []]. reflexivity.
Defined.

(** ** Building the converters *)

Section Building.
Import Server.

Variable turndown : TurndownService -> jsstring -> result jsstring.
Variable translate :
  jsstring -> gmap jsstring NodeHtmlMarkdown.TranslatorConfig
  -> result jsstring.

Lemma read_fresh h t o :
  read (length h) {| heap := h ++ [o]; trace := t |}
  = (Ok o, {| heap := h ++ [o]; trace := t |}).
Proof.
  unfold read. cbn [heap].
  by rewrite (list_lookup_middle h [] o (length h) eq_refl).
Qed.

Lemma write_fresh h t o o' :
  write (length h) o' {| heap := h ++ [o]; trace := t |}
  = (Ok tt, {| heap := h ++ [o']; trace := t |}).
Proof.
  unfold write. cbn [heap trace].
  by rewrite (insert_app_r_alt h [o] (length h)), Nat.sub_diag by lia.
Qed.

Lemma remove_fresh h t s f :
  remove (length h) f {| heap := h ++ [TurndownObj s]; trace := t |}
  = (Ok tt,
     {| heap := h ++ [TurndownObj {| options := options s; rules := rules s;
                                     removed := f :: removed s |}];
        trace := t |}).
Proof.
  unfold remove, mbind, M_bind. rewrite read_fresh. apply write_fresh.
Qed.

Lemma addRule_fresh h t s key r :
  addRule (length h) key r {| heap := h ++ [TurndownObj s]; trace := t |}
  = (Ok tt,
     {| heap := h ++ [TurndownObj {| options := options s;
                                     rules := (key, r) :: rules s;
                                     removed := removed s |}];
        trace := t |}).
Proof.
  unfold addRule, mbind, M_bind. rewrite read_fresh. apply write_fresh.
Qed.

Lemma setTranslator_fresh h t tbl key cfg :
  setTranslator (length h) key cfg
    {| heap := h ++ [TranslatorsObj tbl]; trace := t |}
  = (Ok tt, {| heap := h ++ [TranslatorsObj (<[key := cfg]> tbl)];
               trace := t |}).
Proof.
  unfold setTranslator, mbind, M_bind. rewrite read_fresh. apply write_fresh.
Qed.

(** What one run of the Turndown conversion step does to the world: it
    appends its own service to the heap and hands it to [turndown]. *)
Lemma convertByTD_run htmlString mainOnly w :
  convertByTD turndown htmlString mainOnly w
  = (turndown (configuredService mainOnly) htmlString,
     {| heap := heap w ++ [TurndownObj (configuredService mainOnly)];
        trace := trace w |}).
Proof.
  destruct w as [h t]. unfold convertByTD, newTurndown, alloc.
  unfold mbind at 1, M_bind at 1. cbn [heap trace].
  unfold mbind at 1, M_bind at 1. rewrite remove_fresh.
  unfold mbind at 1, M_bind at 1. rewrite remove_fresh.
  unfold mbind at 1, M_bind at 1.
  destruct mainOnly.
  - unfold mbind at 1, M_bind at 1. rewrite remove_fresh.
    unfold mbind at 1, M_bind at 1. rewrite remove_fresh.
    rewrite remove_fresh.
    unfold mbind at 1, M_bind at 1. rewrite addRule_fresh.
    unfold mbind at 1, M_bind at 1. rewrite addRule_fresh.
    unfold callTurndown, mbind, M_bind. rewrite read_fresh. reflexivity.
  - unfold mret, M_ret.
    unfold mbind at 1, M_bind at 1. rewrite addRule_fresh.
    unfold mbind at 1, M_bind at 1. rewrite addRule_fresh.
    unfold callTurndown, mbind, M_bind. rewrite read_fresh. reflexivity.
Qed.

Lemma convertByNHM_run htmlString mainOnly w :
  convertByNHM translate htmlString mainOnly w
  = (translate htmlString (configuredTranslators mainOnly),
     {| heap := heap w ++ [TranslatorsObj (configuredTranslators mainOnly)];
        trace := trace w |}).
Proof.
  destruct w as [h t]. unfold convertByNHM, alloc.
  unfold mbind at 1, M_bind at 1. cbn [heap trace].
  unfold mbind at 1, M_bind at 1.
  destruct mainOnly.
  - unfold mbind at 1, M_bind at 1. rewrite setTranslator_fresh.
    unfold mbind at 1, M_bind at 1. rewrite setTranslator_fresh.
    rewrite setTranslator_fresh.
    unfold callTranslate, mbind, M_bind. rewrite read_fresh. reflexivity.
  - unfold mret, M_ret.
    unfold callTranslate, mbind, M_bind. rewrite read_fresh. reflexivity.
Qed.

End Building.

(** C9: the conversion step of either strategy gives the same result
    from any two worlds, in particular after an earlier conversion as
    without it, so nothing a request leaves behind can change another;
    each run allocates its own configuration, leaves every object that
    was on the heap in place and performs no input or output. *)
Theorem conversion_is_stateless
  (turndown : TurndownService -> jsstring -> result jsstring)
  (translate : jsstring -> gmap jsstring NodeHtmlMarkdown.TranslatorConfig
               -> result jsstring)
  htmlString mainOnly w1 w2 :
  (Server.convertByTD turndown htmlString mainOnly w1).1
    = (Server.convertByTD turndown htmlString mainOnly w2).1
  /\ (Server.convertByNHM translate htmlString mainOnly w1).1
     = (Server.convertByNHM translate htmlString mainOnly w2).1
  /\ heap (Server.convertByTD turndown htmlString mainOnly w1).2
     = heap w1 ++ [TurndownObj (configuredService mainOnly)]
  /\ heap (Server.convertByNHM translate htmlString mainOnly w1).2
     = heap w1 ++ [TranslatorsObj (configuredTranslators mainOnly)]
  /\ trace (Server.convertByTD turndown htmlString mainOnly w1).2 = trace w1
  /\ trace (Server.convertByNHM translate htmlString mainOnly w1).2
     = trace w1
  /\ (forall earlierHtml earlierMainOnly,
        (Server.convertByTD turndown htmlString mainOnly
           (Server.convertByTD turndown earlierHtml earlierMainOnly w1).2).1
        = (Server.convertByTD turndown htmlString mainOnly w1).1
        /\ (Server.convertByNHM translate htmlString mainOnly
              (Server.convertByNHM translate earlierHtml earlierMainOnly
                 w1).2).1
           = (Server.convertByNHM translate htmlString mainOnly w1).1).
Proof.
  rewrite !convertByTD_run, !convertByNHM_run. cbn [fst snd heap trace].
  repeat split; by rewrite ?convertByTD_run, ?convertByNHM_run.
Qed.

(** ** The shared contract *)

Lemma dl_marker_direct content n dt :
  In dt (children n) ->
  tagName dt = Some (js "DT") ->
  truthy (trimmedText dt) = true ->
  includes (js "**" ++ trimmedText dt ++ js ":**")
    (TurndownRules.dl_replacement content n) = true.
Proof.
  intros Hin Htag Htxt. rewrite dl_replacement_fragment. unfold dl_fragment.
  apply in_split in Hin as (pre & post & ->).
  rewrite flat_map_app. cbn [flat_map]. rewrite (dl_emit_term dt) by done.
  replace (nl ++ nl ++ (flat_map dl_emit pre
             ++ (js "**" ++ trimmedText dt ++ js ":**")
             ++ flat_map dl_emit post) ++ nl)
    with ((nl ++ nl ++ flat_map dl_emit pre)
            ++ (js "**" ++ trimmedText dt ++ js ":**")
            ++ (flat_map dl_emit post ++ nl))
    by (by rewrite <- !app_assoc).
  apply includes_app.
Qed.

(** Terms grouped in a [div] leave no marker: the [dl] rule reads the
    direct children of the list only. *)
Lemma dl_marker_as_specified_fails :
  ~ dl_marker_as_specified dl_grouped_terms.
Proof.
  intros H.
  destruct (H [] (el "dt" [txt "Term"])) as [term Hterm].
  - vm_compute. auto.
  - reflexivity.
  - reflexivity.
  - vm_compute in Hterm. discriminate.
Qed.

(** ** Removed elements inside a table *)

(** C4 at its failing inputs: the Turndown service is told to remove
    [script] and [style] (always) and [nav] (when [mainOnly] is set),
    yet the table and definition-list rules it also carries read
    [textContent], so the text of a script or of a navigation block
    inside a cell, or of a style sheet inside a definition, is printed. *)
Theorem removed_text_inside_table_is_printed :
  (forall mainOnly, In (js "script") (removed (configuredService mainOnly)))
  /\ In (js "nav") (removed (configuredService true))
  /\ (forall mainOnly,
        In (js "table", Server.table_rule)
          (rules (configuredService mainOnly)))
  /\ replacement Server.table_rule [] table_with_script
     = Ok (nl ++ js "| x()A |" ++ nl ++ js "|---|" ++ nl)
  /\ replacement Server.table_rule [] table_with_nav
     = Ok (nl ++ js "| Menu | Body |" ++ nl ++ js "|---|---|" ++ nl)
  /\ In (js "style") (removed (configuredService false))
  /\ replacement Server.dl_rule [] dl_with_style
     = Ok (nl ++ nl ++ js "**T:** b{}D" ++ nl ++ nl).
Proof.
  split; [intros []; vm_compute; tauto|].
  split; [vm_compute; tauto|].
  split; [intros []; right; left; reflexivity|].
  split; [reflexivity|]. split; [reflexivity|].
  split; [vm_compute; tauto | reflexivity].
Qed.

(** ** The document head *)

Lemma orEmpty_Some s : orEmpty (Some s) = s.
Proof. by destruct s. Qed.

Lemma querySelectorAll_children sel name cs :
  querySelectorAll sel (Element name cs)
  = flat_map (fun c => List.filter (matchesSelector sel) [c]
                       ++ querySelectorAll sel c) cs.
Proof.
  unfold querySelectorAll. cbn [descendants].
  induction cs as [|c cs IH]; [done|].
  cbn [flat_map]. rewrite List.filter_app, IH. cbn [List.filter app].
  destruct (matchesSelector sel c); by rewrite <- ?app_assoc.
Qed.

Lemma querySelector_first_child sel name pre x post :
  (forall c, In c pre ->
     matchesSelector sel c = false /\ querySelectorAll sel c = []) ->
  matchesSelector sel x = true ->
  querySelector sel (Element name (pre ++ x :: post)) = Some x.
Proof.
  intros Hpre Hx. unfold querySelector.
  rewrite querySelectorAll_children, flat_map_app.
  rewrite flat_map_nothing.
  - cbn [flat_map List.filter app]. by rewrite Hx.
  - intros c Hc. destruct (Hpre c Hc) as [Hm Hq].
    cbn [List.filter]. by rewrite Hm, Hq.
Qed.

(** C8: the [Head] translator is registered with a [postprocess] hook
    that returns the text of the first [title] element below the head
    whatever was rendered for the head by default and whatever else the
    head holds, and the empty string when the head has no [title]. *)
Theorem head_renders_title_only :
  (forall content name pre titleChildren post,
     (forall c, In c pre ->
        matchesSelector [js "title"] c = false
        /\ querySelectorAll [js "title"] c = []) ->
     NodeHtmlMarkdown.Head_postprocess
       {| NodeHtmlMarkdown.ctx_node :=
            Element name (pre ++ Element (js "title") titleChildren :: post);
          NodeHtmlMarkdown.ctx_content := content |}
     = flat_map descendantText titleChildren)
  /\ (forall content n,
        querySelectorAll [js "title"] n = [] ->
        NodeHtmlMarkdown.Head_postprocess
          {| NodeHtmlMarkdown.ctx_node := n;
             NodeHtmlMarkdown.ctx_content := content |} = [])
  /\ (forall mainOnly,
        configuredTranslators mainOnly !! js "Head"
        = Some NodeHtmlMarkdown.Head_translator)
  /\ NodeHtmlMarkdown.postprocess NodeHtmlMarkdown.Head_translator
     = Some NodeHtmlMarkdown.Head_postprocess
  /\ NodeHtmlMarkdown.ignore NodeHtmlMarkdown.Head_translator = Some false.
Proof.
  split; [|split; [|split; [|done]]].
  - intros content name pre titleChildren post Hpre.
    unfold NodeHtmlMarkdown.Head_postprocess. cbn [NodeHtmlMarkdown.ctx_node].
    rewrite (querySelector_first_child _ _ pre _ post Hpre) by reflexivity.
    cbn [textContent]. apply orEmpty_Some.
  - intros content n Hnone. unfold NodeHtmlMarkdown.Head_postprocess.
    cbn [NodeHtmlMarkdown.ctx_node]. unfold querySelector. by rewrite Hnone.
  - intros []; by vm_compute.
Qed.

Lemma head_renders_title_only_witness :
  NodeHtmlMarkdown.Head_postprocess
    {| NodeHtmlMarkdown.ctx_node := head_with_title;
       NodeHtmlMarkdown.ctx_content := js "anything" |} = js "Hi"
  /\ NodeHtmlMarkdown.Head_postprocess
       {| NodeHtmlMarkdown.ctx_node := el "head" [el "meta" []];
          NodeHtmlMarkdown.ctx_content := js "anything" |} = [].
Proof.
  destruct head_renders_title_only as (Htitle & Hnone & _).
  split.
  - apply (Htitle (js "anything") (js "head") [el "meta" []] [txt "Hi"]
             [el "link" []]).
    intros c [<- | []]. split; reflexivity.
  - exact (Hnone (js "anything") (el "head" [el "meta" []]) eq_refl).
Defined.

(** ** The tool dispatcher *)

Section Dispatcher.
Import Server.

Lemma dispatch_rejects_empty_url request :
  ToString (arguments_url request) = [] ->
  dispatch request = Throw (Error (js "url is required !")).
Proof. intros H. unfold dispatch. by rewrite H. Qed.

Lemma dispatch_passes_guard request :
  truthy (ToString (arguments_url request)) = true ->
  dispatch request
  = if bool_decide (name request = js "get_raw_text")
    then Ok (CallGetRawTextString (ToString (arguments_url request)))
    else if bool_decide (name request = js "get_rendered_html")
    then Ok (CallGetHtmlString (ToString (arguments_url request)))
    else if bool_decide (name request = js "get_markdown")
    then Ok (CallGetMarkdownStringFromHtmlByNHM
               (ToString (arguments_url request)) None)
    else if bool_decide (name request = js "get_markdown_summary")
    then Ok (CallGetMarkdownStringFromHtmlByTD
               (ToString (arguments_url request)) (Some true))
    else Throw (Error (js "Unknown tool")).
Proof. intros H. unfold dispatch. by rewrite H. Qed.

Lemma dispatch_guard_cases request :
  dispatch request = Throw (Error (js "url is required !"))
  \/ truthy (ToString (arguments_url request)) = true.
Proof.
  unfold dispatch.
  destruct (truthy (ToString (arguments_url request))); [by right | by left].
Qed.

Variable axios_get page_content : jsstring -> result jsstring.
Variable turndown : TurndownService -> jsstring -> result jsstring.
Variable translate :
  jsstring -> gmap jsstring NodeHtmlMarkdown.TranslatorConfig
  -> result jsstring.

Lemma getRawTextString_run url w :
  getRawTextString axios_get url w
  = (axios_get url,
     {| heap := heap w; trace := trace w ++ [AxiosGet url] |}).
Proof. reflexivity. Qed.

Lemma getHtmlString_run url w :
  getHtmlString page_content url w
  = (page_content url,
     {| heap := heap w; trace := trace w ++ [BrowserGoto url] |}).
Proof. reflexivity. Qed.

Lemma getMarkdownStringFromHtmlByNHM_run url mainOnly w :
  getMarkdownStringFromHtmlByNHM page_content translate url mainOnly w
  = match page_content url with
    | Ok htmlString =>
        (translate htmlString (configuredTranslators (defaultFalse mainOnly)),
         {| heap := heap w
                    ++ [TranslatorsObj
                          (configuredTranslators (defaultFalse mainOnly))];
            trace := trace w ++ [BrowserGoto url] |})
    | Throw e =>
        (Throw e, {| heap := heap w; trace := trace w ++ [BrowserGoto url] |})
    end.
Proof.
  unfold getMarkdownStringFromHtmlByNHM, mbind, M_bind.
  rewrite getHtmlString_run. destruct (page_content url); [|done].
  by rewrite convertByNHM_run.
Qed.

Lemma getMarkdownStringFromHtmlByTD_run url mainOnly w :
  getMarkdownStringFromHtmlByTD page_content turndown url mainOnly w
  = match page_content url with
    | Ok htmlString =>
        (turndown (configuredService (defaultFalse mainOnly)) htmlString,
         {| heap := heap w
                    ++ [TurndownObj
                          (configuredService (defaultFalse mainOnly))];
            trace := trace w ++ [BrowserGoto url] |})
    | Throw e =>
        (Throw e, {| heap := heap w; trace := trace w ++ [BrowserGoto url] |})
    end.
Proof.
  unfold getMarkdownStringFromHtmlByTD, mbind, M_bind.
  rewrite getHtmlString_run. destruct (page_content url); [|done].
  by rewrite convertByTD_run.
Qed.

Lemma handler_run request c w :
  dispatch request = Ok c ->
  handler axios_get page_content turndown translate request w
  = match perform axios_get page_content turndown translate c w with
    | (Ok text, w') => (Ok {| content_text := text |}, w')
    | (Throw e, w') => (Throw e, w')
    end.
Proof.
  intros H. unfold handler, mbind, M_bind, lift. by rewrite H.
Qed.

End Dispatcher.

(** C7 at its failing input: a call that supplies no [url] is not
    rejected.  [String(undefined)] is the non-empty text [undefined], so
    the guard lets the call through and the helper is run on that text:
    [get_raw_text] sends a request to the network and
    [get_rendered_html] drives the browser. *)
Theorem missing_url_is_not_rejected
  (axios_get page_content : jsstring -> result jsstring)
  (turndown : TurndownService -> jsstring -> result jsstring)
  (translate : jsstring -> gmap jsstring NodeHtmlMarkdown.TranslatorConfig
               -> result jsstring)
  (w : world) :
  Server.dispatch (call_without_arguments "get_raw_text")
    = Ok (Server.CallGetRawTextString (js "undefined"))
  /\ Server.dispatch (call_without_url "get_raw_text")
     = Ok (Server.CallGetRawTextString (js "undefined"))
  /\ trace (Server.handler axios_get page_content turndown translate
              (call_without_arguments "get_raw_text") w).2
     = trace w ++ [AxiosGet (js "undefined")]
  /\ trace (Server.handler axios_get page_content turndown translate
              (call_without_url "get_rendered_html") w).2
     = trace w ++ [BrowserGoto (js "undefined")].
Proof.
  split; [reflexivity|]. split; [reflexivity|].
  split.
  - rewrite (handler_run _ _ _ _ _
               (Server.CallGetRawTextString (js "undefined")))
      by reflexivity.
    cbn [Server.perform]. rewrite getRawTextString_run.
    by destruct (axios_get (js "undefined")).
  - rewrite (handler_run _ _ _ _ _
               (Server.CallGetHtmlString (js "undefined")))
      by reflexivity.
    cbn [Server.perform]. rewrite getHtmlString_run.
    by destruct (page_content (js "undefined")).
Qed.

(** C10: whatever the request, the dispatcher calls the
    NodeHtmlMarkdown helper only for [get_markdown] and without a
    [mainOnly] argument, which then defaults to false, and the Turndown
    helper only for [get_markdown_summary] and with [mainOnly] true; a
    [get_markdown] or [get_markdown_summary] request that passes the
    [url] guard is answered by that helper and no other, so that once
    the page is rendered the one converter the call builds is the
    translator table without the ignore entries, respectively the
    Turndown service that removes header, footer and nav. *)
Theorem dispatch_hardwires_strategies request :
  (forall url mainOnly,
     Server.dispatch request
       = Ok (Server.CallGetMarkdownStringFromHtmlByNHM url mainOnly) ->
     Server.name request = js "get_markdown"
     /\ mainOnly = None /\ Server.defaultFalse mainOnly = false)
  /\ (forall url mainOnly,
        Server.dispatch request
          = Ok (Server.CallGetMarkdownStringFromHtmlByTD url mainOnly) ->
        Server.name request = js "get_markdown_summary"
        /\ Server.defaultFalse mainOnly = true)
  /\ (Server.name request = js "get_markdown" ->
      truthy (Server.ToString (Server.arguments_url request)) = true ->
      Server.dispatch request
      = Ok (Server.CallGetMarkdownStringFromHtmlByNHM
              (Server.ToString (Server.arguments_url request)) None))
  /\ (Server.name request = js "get_markdown_summary" ->
      truthy (Server.ToString (Server.arguments_url request)) = true ->
      Server.dispatch request
      = Ok (Server.CallGetMarkdownStringFromHtmlByTD
              (Server.ToString (Server.arguments_url request)) (Some true)))
  /\ (forall axios_get page_content turndown translate w htmlString,
        truthy (Server.ToString (Server.arguments_url request)) = true ->
        page_content (Server.ToString (Server.arguments_url request))
          = Ok htmlString ->
        (Server.name request = js "get_markdown" ->
         Server.handler axios_get page_content turndown translate request w
         = (match translate htmlString (configuredTranslators false) with
            | Ok text => Ok {| Server.content_text := text |}
            | Throw e => Throw e
            end,
            {| heap := heap w
                       ++ [TranslatorsObj (configuredTranslators false)];
               trace := trace w
                        ++ [BrowserGoto
                              (Server.ToString
                                 (Server.arguments_url request))] |}))
        /\ (Server.name request = js "get_markdown_summary" ->
            Server.handler axios_get page_content turndown translate request w
            = (match turndown (configuredService true) htmlString with
               | Ok text => Ok {| Server.content_text := text |}
               | Throw e => Throw e
               end,
               {| heap := heap w ++ [TurndownObj (configuredService true)];
                  trace := trace w
                           ++ [BrowserGoto
                                 (Server.ToString
                                    (Server.arguments_url request))] |}))).
Proof.
  assert (Hmd : Server.name request = js "get_markdown" ->
      truthy (Server.ToString (Server.arguments_url request)) = true ->
      Server.dispatch request
      = Ok (Server.CallGetMarkdownStringFromHtmlByNHM
              (Server.ToString (Server.arguments_url request)) None)).
  { intros Hname Hok. rewrite dispatch_passes_guard by done.
    rewrite Hname. reflexivity. }
  assert (Hsum : Server.name request = js "get_markdown_summary" ->
      truthy (Server.ToString (Server.arguments_url request)) = true ->
      Server.dispatch request
      = Ok (Server.CallGetMarkdownStringFromHtmlByTD
              (Server.ToString (Server.arguments_url request)) (Some true))).
  { intros Hname Hok. rewrite dispatch_passes_guard by done.
    rewrite Hname. reflexivity. }
  split; [|split; [|split; [exact Hmd|split; [exact Hsum|]]]].
  - intros url mainOnly H.
    destruct (dispatch_guard_cases request) as [Hrej | Hok];
      [congruence|].
    rewrite dispatch_passes_guard in H by done.
    repeat case_bool_decide; try discriminate.
    by injection H as <- <-.
  - intros url mainOnly H.
    destruct (dispatch_guard_cases request) as [Hrej | Hok];
      [congruence|].
    rewrite dispatch_passes_guard in H by done.
    repeat case_bool_decide; try discriminate.
    by injection H as <- <-.
  - intros axios_get page_content turndown translate w htmlString Hok Hpage.
    split; intros Hname.
    + rewrite (handler_run _ _ _ _ _ _ _ (Hmd Hname Hok)).
      cbn [Server.perform].
      rewrite getMarkdownStringFromHtmlByNHM_run, Hpage.
      change (Server.defaultFalse None) with false.
      destruct (translate htmlString (configuredTranslators false));
        reflexivity.
    + rewrite (handler_run _ _ _ _ _ _ _ (Hsum Hname Hok)).
      cbn [Server.perform].
      rewrite getMarkdownStringFromHtmlByTD_run, Hpage.
      change (Server.defaultFalse (Some true)) with true.
      destruct (turndown (configuredService true) htmlString); reflexivity.
Qed.

Lemma dispatch_hardwires_strategies_witness :
  Server.dispatch (call_with_url "get_markdown" "http://a")
    = Ok (Server.CallGetMarkdownStringFromHtmlByNHM (js "http://a") None)
  /\ Server.dispatch (call_with_url "get_markdown_summary" "http://a")
     = Ok (Server.CallGetMarkdownStringFromHtmlByTD (js "http://a")
             (Some true))
  /\ Server.defaultFalse None = false
  /\ Server.defaultFalse (Some true) = true
  /\ heap (Server.handler echo echo (fun _ => echo) (fun s _ => echo s)
             (call_with_url "get_markdown" "http://a")
             {| heap := []; trace := [] |}).2
     = [TranslatorsObj (configuredTranslators false)]
  /\ heap (Server.handler echo echo (fun _ => echo) (fun s _ => echo s)
             (call_with_url "get_markdown_summary" "http://a")
             {| heap := []; trace := [] |}).2
     = [TurndownObj (configuredService true)].
Proof.
  pose proof (dispatch_hardwires_strategies
                (call_with_url "get_markdown" "http://a"))
    as (Hnhm & _ & Hmd & _ & Hrun1).
  pose proof (dispatch_hardwires_strategies
                (call_with_url "get_markdown_summary" "http://a"))
    as (_ & Htd & _ & Hsum & Hrun2).
  assert (H1 := Hmd eq_refl eq_refl).
  assert (H2 := Hsum eq_refl eq_refl).
  split; [exact H1|]. split; [exact H2|].
  split; [exact (proj2 (proj2 (Hnhm _ _ H1)))|].
  split; [exact (proj2 (Htd _ _ H2))|].
  split.
  - rewrite (proj1 (Hrun1 echo echo (fun _ => echo) (fun s _ => echo s)
                      {| heap := []; trace := [] |} (js "http://a")
                      eq_refl eq_refl) eq_refl).
    reflexivity.
  - rewrite (proj2 (Hrun2 echo echo (fun _ => echo) (fun s _ => echo s)
                      {| heap := []; trace := [] |} (js "http://a")
                      eq_refl eq_refl) eq_refl).
    reflexivity.
Defined.

(** ** The browser session *)

Section BrowserSession.
Import Browser.

Lemma getHtmlString_cases env request_url :
  getHtmlString env request_url
  = match launch env with
    | Throw e => (Throw e, [Launch [js "--single-process"] true])
    | Ok _ =>
        let closing :=
          Close :: match close env with
                   | Ok _ => []
                   | Throw e => [ConsoleError (js "error:") e]
                   end in
        match newPage env with
        | Throw e => (Throw e, [Launch [js "--single-process"] true; NewPage]
                               ++ closing)
        | Ok _ =>
            match goto env request_url TIMEOUT with
            | Throw e =>
                (Throw e, [Launch [js "--single-process"] true; NewPage;
                           Goto request_url TIMEOUT] ++ closing)
            | Ok _ =>
                (content env,
                 [Launch [js "--single-process"] true; NewPage;
                  Goto request_url TIMEOUT; Content] ++ closing)
            end
        end
    end.
Proof.
  destruct env as [l p g c cl].
  unfold getHtmlString, tryFinally, tryBody, finallyBlock, tryCatch,
    closeBrowser, request, setBrowser, getBrowser, mbind, B_bind, mret, B_ret.
  cbn [launch newPage goto content close browser log].
  destruct l as [[]|el]; cbn; [|reflexivity].
  destruct p as [[]|ep]; cbn; [|by destruct cl as [[]|ecl]].
  destruct (g request_url TIMEOUT) as [[]|eg]; cbn;
    [|by destruct cl as [[]|ecl]].
  destruct c as [html|ec]; by destruct cl as [[]|ecl].
Qed.

End BrowserSession.

(** X1: what [getHtmlString] returns is the outcome of its [try] body
    alone: the page's content when launching, opening the page and
    navigating all succeed, the first failure among them otherwise.  An
    error while closing the browser never replaces it.  This outcome is
    what the handler's helper takes from its page collaborator. *)
Theorem getHtmlString_outcome env request_url w :
  (Browser.getHtmlString env request_url).1
    = Browser.page_content env request_url
  /\ Server.getHtmlString (Browser.page_content env) request_url w
     = ((Browser.getHtmlString env request_url).1,
        {| heap := heap w; trace := trace w ++ [BrowserGoto request_url] |}).
Proof.
  assert (H : (Browser.getHtmlString env request_url).1
              = Browser.page_content env request_url).
  { rewrite getHtmlString_cases. unfold Browser.page_content.
    destruct env as [l p g c cl]. cbn.
    destruct l as [[]|]; [|done]. destruct p as [[]|]; [|done].
    cbn. by destruct (g request_url Browser.TIMEOUT) as [[]|]. }
  split; [exact H|]. by rewrite getHtmlString_run, H.
Qed.

(** X2: a launched browser is closed exactly once, after the last
    request to the page and on every path, and a browser that could not
    be launched is never closed.  The requests before the close are an
    initial part of launch, new page, navigation with the 20000 ms
    timeout, content; a failing close is reported on the console and
    nothing follows it. *)
Theorem getHtmlString_closes_browser env request_url :
  exists pageEvents,
    pageEvents `prefix_of`
      [Browser.Launch [js "--single-process"] true; Browser.NewPage;
       Browser.Goto request_url 20000; Browser.Content]
    /\ ~ In Browser.Close pageEvents
    /\ (Browser.getHtmlString env request_url).2
       = pageEvents
         ++ match Browser.launch env with
            | Throw _ => []
            | Ok _ =>
                Browser.Close
                :: match Browser.close env with
                   | Ok _ => []
                   | Throw e => [Browser.ConsoleError (js "error:") e]
                   end
            end.
Proof.
  rewrite getHtmlString_cases.
  destruct (Browser.launch env) as [[]|el].
  - destruct (Browser.newPage env) as [[]|ep];
      [destruct (Browser.goto env request_url Browser.TIMEOUT) as [[]|eg]|].
    + eexists. split; [|split; [|reflexivity]].
      * reflexivity.
      * cbn. intuition discriminate.
    + eexists. split; [|split; [|reflexivity]].
      * by exists [Browser.Content].
      * cbn. intuition discriminate.
    + eexists. split; [|split; [|reflexivity]].
      * by eexists [_; _].
      * cbn. intuition discriminate.
  - exists [Browser.Launch [js "--single-process"] true].
    split; [|split].
    + by eexists [_; _; _].
    + cbn. intuition discriminate.
    + reflexivity.
Qed.

(** ** The handler as a function of its collaborators *)

Section HandlerFootprint.
Import Server.

Variable axios_get page_content : jsstring -> result jsstring.
Variable turndown : TurndownService -> jsstring -> result jsstring.
Variable translate :
  jsstring -> gmap jsstring NodeHtmlMarkdown.TranslatorConfig
  -> result jsstring.

Lemma handler_rejected request e w :
  dispatch request = Throw e ->
  handler axios_get page_content turndown translate request w = (Throw e, w).
Proof.
  intros H. unfold handler, mbind, M_bind, lift. by rewrite H.
Qed.

Lemma handler_closed_form request w :
  handler axios_get page_content turndown translate request w
  = (textResult
       (outcomeOf axios_get page_content turndown translate
          (dispatch request)),
     {| heap := heap w ++ objectsOf page_content (dispatch request);
        trace := trace w ++ requestsOf (dispatch request) |}).
Proof.
  destruct (dispatch request) as [c|e] eqn:Hd.
  - rewrite (handler_run _ _ _ _ _ c) by done.
    destruct c as [url|url|url mainOnly|url mainOnly];
      cbn [perform outcomeOf objectsOf requestsOf].
    + rewrite getRawTextString_run, app_nil_r.
      by destruct (axios_get url).
    + rewrite getHtmlString_run, app_nil_r.
      by destruct (page_content url).
    + rewrite getMarkdownStringFromHtmlByNHM_run.
      destruct (page_content url) as [htmlString|e];
        cbn [mbind result_bind textResult]; [|by rewrite app_nil_r].
      by destruct (translate htmlString _).
    + rewrite getMarkdownStringFromHtmlByTD_run.
      destruct (page_content url) as [htmlString|e];
        cbn [mbind result_bind textResult]; [|by rewrite app_nil_r].
      by destruct (turndown _ htmlString).
  - rewrite (handler_rejected _ e) by done.
    cbn [outcomeOf objectsOf requestsOf textResult].
    rewrite !app_nil_r. by destruct w.
Qed.

End HandlerFootprint.

(** X3: the handler is a function of what its collaborators answer.  Its
    result is the text of the helper the dispatcher selected, wrapped
    unchanged, or the error that helper or the dispatcher raised; its
    only lasting effects are at most one request to the network or the
    browser, appended to the trace, and at most one converter
    configuration, appended to the heap. *)
Theorem handler_is_a_function_of_its_collaborators
  (axios_get page_content : jsstring -> result jsstring)
  (turndown : TurndownService -> jsstring -> result jsstring)
  (translate : jsstring -> gmap jsstring NodeHtmlMarkdown.TranslatorConfig
               -> result jsstring)
  request w :
  Server.handler axios_get page_content turndown translate request w
    = (textResult
         (outcomeOf axios_get page_content turndown translate
            (Server.dispatch request)),
       {| heap := heap w ++ objectsOf page_content (Server.dispatch request);
          trace := trace w ++ requestsOf (Server.dispatch request) |})
  /\ (length (requestsOf (Server.dispatch request)) <= 1)%nat
  /\ (length (objectsOf page_content (Server.dispatch request)) <= 1)%nat.
Proof.
  split; [apply handler_closed_form|].
  split.
  - destruct (Server.dispatch request) as [[]|]; cbn; lia.
  - destruct (Server.dispatch request) as [[url|url|url m|url m]|]; cbn;
      try lia; destruct (page_content url); cbn; lia.
Qed.

(** X4: the requests that leave no mark are exactly the refused ones.
    When the dispatcher refuses a request (no usable [url], or a tool
    name it does not know) the handler raises the dispatcher's error,
    sends no request and allocates nothing; every request it serves
    leaves the world changed, whether the helper succeeds or not. *)
Theorem refused_request_has_no_effect
  (axios_get page_content : jsstring -> result jsstring)
  (turndown : TurndownService -> jsstring -> result jsstring)
  (translate : jsstring -> gmap jsstring NodeHtmlMarkdown.TranslatorConfig
               -> result jsstring)
  request w :
  ((exists e, Server.dispatch request = Throw e)
   <-> (Server.handler axios_get page_content turndown translate
          request w).2 = w)
  /\ (forall e,
        Server.dispatch request = Throw e ->
        Server.handler axios_get page_content turndown translate request w
        = (Throw e, w)).
Proof.
  split; [|intros e He; by apply handler_rejected].
  split.
  - intros [e He]. by rewrite (handler_rejected _ _ _ _ _ e).
  - rewrite handler_closed_form. cbn [snd]. intros Hw.
    apply (f_equal (fun v => length (trace v))) in Hw.
    cbn [trace] in Hw. rewrite length_app in Hw.
    destruct (Server.dispatch request) as [[]|e];
      cbn [requestsOf length] in Hw; try lia.
    by exists e.
Qed.

Lemma refused_request_has_no_effect_witness :
  Server.handler echo echo (fun _ => echo) (fun s _ => echo s)
    (call_with_url "get_pdf" "http://a") {| heap := []; trace := [] |}
  = (Throw (Error (js "Unknown tool")), {| heap := []; trace := [] |}).
Proof.
  exact (proj2 (refused_request_has_no_effect echo echo (fun _ => echo)
                  (fun s _ => echo s) (call_with_url "get_pdf" "http://a")
                  {| heap := []; trace := [] |})
           (Error (js "Unknown tool")) eq_refl).
Defined.

(** X5: when the page cannot be rendered, a markdown tool fails with the
    renderer's error and conversion never starts: the browser was asked
    once and no converter configuration was built. *)
Theorem render_failure_stops_before_conversion
  (axios_get page_content : jsstring -> result jsstring)
  (turndown : TurndownService -> jsstring -> result jsstring)
  (translate : jsstring -> gmap jsstring NodeHtmlMarkdown.TranslatorConfig
               -> result jsstring)
  request e w :
  (Server.name request = js "get_markdown"
   \/ Server.name request = js "get_markdown_summary") ->
  truthy (Server.ToString (Server.arguments_url request)) = true ->
  page_content (Server.ToString (Server.arguments_url request)) = Throw e ->
  Server.handler axios_get page_content turndown translate request w
  = (Throw e,
     {| heap := heap w;
        trace := trace w
                 ++ [BrowserGoto
                       (Server.ToString (Server.arguments_url request))] |}).
Proof.
  intros Hname Hok Hpage. rewrite handler_closed_form.
  rewrite dispatch_passes_guard by done.
  destruct Hname as [Hname | Hname]; rewrite Hname;
    cbn [bool_decide decide_rel]; vm_compute bool_decide;
    cbn [outcomeOf objectsOf requestsOf]; rewrite Hpage;
    cbn [mbind result_bind textResult]; by rewrite app_nil_r.
Qed.

Lemma render_failure_stops_before_conversion_witness :
  Server.handler echo unreachable (fun _ => echo) (fun s _ => echo s)
    (call_with_url "get_markdown_summary" "http://a")
    {| heap := []; trace := [] |}
  = (Throw (Error (js "net::ERR_NAME_NOT_RESOLVED")),
     {| heap := []; trace := [BrowserGoto (js "http://a")] |}).
Proof.
  exact (render_failure_stops_before_conversion echo unreachable
           (fun _ => echo) (fun s _ => echo s)
           (call_with_url "get_markdown_summary" "http://a")
           (Error (js "net::ERR_NAME_NOT_RESOLVED"))
           {| heap := []; trace := [] |}
           (or_intror eq_refl) eq_refl eq_refl).
Defined.

(** ** The guard and the tool names *)

Lemma ToString_empty v :
  Server.ToString v = [] <-> v = Server.VString [] \/ v = Server.VOther [].
Proof.
  split.
  - destruct v as [| |[]|s|s]; cbn; try discriminate; intros ->; auto.
  - by intros [-> | ->].
Qed.

Lemma truthy_nonempty s : truthy s = true <-> s <> [].
Proof. by destruct s. Qed.

(** X6: the guard refuses a call exactly when [String] of its [url]
    argument is the empty string, that is when the argument is an empty
    string or another value that prints as one; an absent, [null] or
    boolean [url] is never refused with [url is required !]. *)
Theorem guard_refuses_exactly_empty_text request :
  (Server.dispatch request = Throw (Error (js "url is required !"))
   <-> Server.ToString (Server.arguments_url request) = [])
  /\ (Server.ToString (Server.arguments_url request) = []
      <-> Server.arguments_url request = Server.VString []
          \/ Server.arguments_url request = Server.VOther []).
Proof.
  split; [|apply ToString_empty].
  split; [|apply dispatch_rejects_empty_url].
  intros H. destruct (dispatch_guard_cases request) as [_ | Hok].
  - destruct (Server.ToString (Server.arguments_url request)) eqn:E; [done|].
    exfalso. unfold Server.dispatch in H. rewrite E in H. cbn in H.
    repeat case_bool_decide; discriminate.
  - rewrite dispatch_passes_guard in H by done.
    repeat case_bool_decide; discriminate.
Qed.

(** X7: the tools the server advertises are the tools it serves.  For a
    call that passes the guard, the dispatcher selects a helper exactly
    when the name is one [ListTools] returns, and raises [Unknown tool]
    exactly when it is not; and every advertised tool declares and
    requires the single argument [url], the only one the handler
    reads. *)
Theorem advertised_tools_are_served request :
  truthy (Server.ToString (Server.arguments_url request)) = true ->
  (In (Server.name request) (map ToolList.name ToolList.tools)
   <-> exists c, Server.dispatch request = Ok c)
  /\ (~ In (Server.name request) (map ToolList.name ToolList.tools)
      <-> Server.dispatch request = Throw (Error (js "Unknown tool")))
  /\ Forall (fun t =>
               ToolList.required (ToolList.inputSchema t) = [js "url"]
               /\ map fst (ToolList.properties (ToolList.inputSchema t))
                  = [js "url"])
       ToolList.tools.
Proof.
  intros Hok. rewrite dispatch_passes_guard by done.
  change (map ToolList.name ToolList.tools)
    with [js "get_raw_text"; js "get_rendered_html"; js "get_markdown";
          js "get_markdown_summary"].
  split; [|split].
  - split.
    + intros [<- | [<- | [<- | [<- | []]]]]; eexists; reflexivity.
    + intros [c Hc]. cbn [In].
      repeat case_bool_decide; try discriminate; naive_solver.
  - split.
    + intros Hnot. cbn [In] in Hnot.
      repeat case_bool_decide; try reflexivity; exfalso; naive_solver.
    + intros H [E | [E | [E | [E | []]]]]; rewrite <- E in H;
        discriminate.
  - repeat constructor.
Qed.

Lemma advertised_tools_are_served_witness :
  (In (js "get_markdown") (map ToolList.name ToolList.tools)
   <-> exists c,
         Server.dispatch (call_with_url "get_markdown" "http://a") = Ok c)
  /\ (~ In (js "get_pdf") (map ToolList.name ToolList.tools)
      <-> Server.dispatch (call_with_url "get_pdf" "http://a")
          = Throw (Error (js "Unknown tool"))).
Proof.
  split.
  - exact (proj1 (advertised_tools_are_served
                    (call_with_url "get_markdown" "http://a") eq_refl)).
  - exact (proj1 (proj2 (advertised_tools_are_served
                           (call_with_url "get_pdf" "http://a") eq_refl))).
Defined.

(** ** More on the table rule *)

Lemma join_has_part sep (parts : list jsstring) x :
  In x parts -> exists a b, join sep parts = a ++ x ++ b.
Proof.
  intros Hin. apply in_split in Hin as (pre & post & ->).
  destruct pre as [|p pre].
  - rewrite app_nil_l, join_cons.
    by exists [], (flat_map (fun y => sep ++ y) post).
  - change ((p :: pre) ++ x :: post) with (p :: (pre ++ x :: post)).
    rewrite join_cons, flat_map_app. cbn [flat_map].
    exists (p ++ flat_map (fun y => sep ++ y) pre ++ sep),
      (flat_map (fun y => sep ++ y) post).
    by rewrite <- !app_assoc.
Qed.

Lemma table_replacement_has_row_line content n out row :
  TurndownRules.table_replacement content n = Ok out ->
  In row (querySelectorAll [js "tr"] n) ->
  exists a b, out = a ++ pipeLine (TurndownRules.rowCells row) ++ b.
Proof.
  intros Hout Hrow.
  destruct (querySelectorAll [js "tr"] n) as [|headerRow dataRows] eqn:Hrows;
    [done|].
  rewrite (table_replacement_rows _ _ _ _ Hrows) in Hout.
  assert (Heq : out = nl ++ join nl (blockLines headerRow dataRows) ++ nl)
    by congruence.
  clear Hout. subst out.
  assert (Hline : In (pipeLine (TurndownRules.rowCells row))
                    (blockLines headerRow dataRows)).
  { unfold blockLines. destruct Hrow as [<- | Hrow]; [by left|].
    right; right. apply in_map_iff. by exists row. }
  destruct (join_has_part nl _ _ Hline) as (a & b & ->).
  exists (nl ++ a), (b ++ nl). by rewrite <- !app_assoc.
Qed.

(** X8: the table rule returns the empty string for exactly the tables
    that hold no [tr] at all. *)
Theorem table_empty_exactly_without_rows content n :
  TurndownRules.table_replacement content n = Ok []
  <-> querySelectorAll [js "tr"] n = [].
Proof.
  split.
  - intros H.
    destruct (querySelectorAll [js "tr"] n) as [|headerRow dataRows] eqn:Hrows;
      [done|].
    rewrite (table_replacement_rows _ _ _ _ Hrows) in H. discriminate.
  - intros Hrows. unfold TurndownRules.table_replacement. by rewrite Hrows.
Qed.

(** X9: nothing of a table's text is dropped: the trimmed text of every
    [th] or [td] of every row occurs in the text the table rule
    returns. *)
Theorem table_keeps_every_cell content n out row cell :
  TurndownRules.table_replacement content n = Ok out ->
  In row (querySelectorAll [js "tr"] n) ->
  In cell (TurndownRules.rowCells row) ->
  includes cell out = true.
Proof.
  intros Hout Hrow Hcell.
  destruct (table_replacement_has_row_line _ _ _ _ Hout Hrow)
    as (a & b & ->).
  destruct (join_has_part (js " | ") _ _ Hcell) as (c & d & Hjoin).
  unfold pipeLine. rewrite Hjoin.
  replace (a ++ (js "| " ++ (c ++ cell ++ d) ++ js " |") ++ b)
    with ((a ++ js "| " ++ c) ++ cell ++ (d ++ js " |" ++ b))
    by (by rewrite <- !app_assoc).
  apply includes_app.
Qed.

Lemma table_keeps_every_cell_witness :
  includes (js "2")
    (nl ++ js "| A | B |" ++ nl ++ js "|---|---|" ++ nl
        ++ js "| 1 | 2 |" ++ nl) = true.
Proof.
  exact (table_keeps_every_cell [] table_scenario1 _
           (el "tr" [el "td" [txt "1"]; el "td" [txt "2"]]) (js "2")
           eq_refl (or_intror (or_introl eq_refl))
           (or_intror (or_introl eq_refl))).
Defined.

Lemma querySelectorAll_unwrap sel t w pre cs post :
  matchesSelector sel (Element w cs) = false ->
  querySelectorAll sel (Element t (pre ++ Element w cs :: post))
  = querySelectorAll sel (Element t (pre ++ cs ++ post)).
Proof.
  intros Hw. rewrite !querySelectorAll_children, !flat_map_app.
  cbn [flat_map List.filter]. rewrite Hw, querySelectorAll_children.
  by rewrite <- !app_assoc.
Qed.

(** X10: the rows of a table may sit in a [tbody], [thead] or any other
    element that is not itself a [tr]: putting some children of the
    table into such a wrapper does not change what the table rule
    returns. *)
Theorem table_rows_may_be_wrapped content t w pre cs post :
  w <> js "tr" ->
  TurndownRules.table_replacement content
    (Element t (pre ++ Element w cs :: post))
  = TurndownRules.table_replacement content (Element t (pre ++ cs ++ post)).
Proof.
  intros Hw. unfold TurndownRules.table_replacement.
  rewrite querySelectorAll_unwrap; [done|].
  cbn [matchesSelector existsb]. rewrite bool_decide_eq_false_2; [done|].
  congruence.
Qed.

Lemma table_rows_may_be_wrapped_witness :
  TurndownRules.table_replacement []
    (el "table" [el "tbody" table_rows_AB])
  = TurndownRules.table_replacement [] (el "table" table_rows_AB).
Proof.
  pose proof (table_rows_may_be_wrapped [] (js "table") (js "tbody") []
                table_rows_AB []) as H.
  rewrite app_nil_r in H. apply H. discriminate.
Defined.

Lemma node_rect_children (P : node -> Prop) :
  (forall d, P (Text d)) ->
  (forall d, P (Comment d)) ->
  (forall name cs, Forall P cs -> P (Element name cs)) ->
  forall n, P n.
Proof.
  intros HT HC HE. fix IH 1. intros [d|d|name cs].
  - apply HT.
  - apply HC.
  - apply HE. induction cs as [|c cs IHcs]; constructor; [apply IH | exact IHcs].
Qed.

Lemma descendants_trans n : forall c x,
  In c (descendants n) -> In x (descendants c) -> In x (descendants n).
Proof.
  induction n as [t|t|name cs IH] using node_rect_children;
    intros c d Hc Hd; [done | done |].
  cbn [descendants] in *. apply in_flat_map in Hc as (x & Hx & Hcx).
  apply in_flat_map. exists x. split; [done|]. right.
  destruct Hcx as [<- | Hcx]; [done|].
  rewrite List.Forall_forall in IH. by apply (IH x Hx c d).
Qed.

(** X11: a table inside a table is not rendered on its own but
    flattened into the outer one: every row of the inner table is also
    a row of the outer table, and its line is part of the outer
    block. *)
Theorem nested_table_rows_join_outer_block content n inner row out :
  In inner (descendants n) ->
  In row (querySelectorAll [js "tr"] inner) ->
  TurndownRules.table_replacement content n = Ok out ->
  In row (querySelectorAll [js "tr"] n)
  /\ exists a b, out = a ++ pipeLine (TurndownRules.rowCells row) ++ b.
Proof.
  intros Hinner Hrow Hout.
  assert (Hin : In row (querySelectorAll [js "tr"] n)).
  { unfold querySelectorAll in *. apply filter_In in Hrow as [Hd Hm].
    apply filter_In. split; [|done]. by apply (descendants_trans n inner). }
  split; [exact Hin|]. by apply (table_replacement_has_row_line content n).
Qed.

Lemma nested_table_rows_join_outer_block_witness :
  In (el "tr" [el "td" [txt "in"]]) (querySelectorAll [js "tr"] table_nested)
  /\ exists a b,
       nl ++ js "| a | in | in |" ++ nl ++ js "|---|---|---|" ++ nl
          ++ js "| in |" ++ nl
       = a ++ pipeLine [js "in"] ++ b.
Proof.
  apply (nested_table_rows_join_outer_block [] table_nested
           (el "table" [el "tr" [el "td" [txt "in"]]])
           (el "tr" [el "td" [txt "in"]])).
  - do 4 right. left. reflexivity.
  - left. reflexivity.
  - reflexivity.
Defined.

(** ** More on the definition-list rule *)

(** X12: a term directly followed by its definition, both direct
    children of the list with non-empty trimmed text, comes out as
    [**term:** definition] and a line feed, placed between what the
    children before and the children after the pair contribute. *)
Theorem dl_pair_in_source_order content n pre dt dd post :
  children n = pre ++ dt :: dd :: post ->
  tagName dt = Some (js "DT") ->
  truthy (trimmedText dt) = true ->
  tagName dd = Some (js "DD") ->
  truthy (trimmedText dd) = true ->
  TurndownRules.dl_replacement content n
  = nl ++ nl ++ flat_map dl_emit pre
       ++ (js "**" ++ trimmedText dt ++ js ":** " ++ trimmedText dd ++ nl)
       ++ flat_map dl_emit post ++ nl
  /\ includes
       (js "**" ++ trimmedText dt ++ js ":** " ++ trimmedText dd ++ nl)
       (TurndownRules.dl_replacement content n) = true.
Proof.
  intros Hch Hdt Hdtxt Hdd Hddtxt.
  assert (Hout : TurndownRules.dl_replacement content n
            = (nl ++ nl ++ flat_map dl_emit pre)
              ++ (js "**" ++ trimmedText dt ++ js ":** "
                    ++ trimmedText dd ++ nl)
              ++ (flat_map dl_emit post ++ nl)).
  { rewrite dl_replacement_fragment. unfold dl_fragment. rewrite Hch.
    rewrite flat_map_app. cbn [flat_map].
    rewrite (dl_emit_term dt), (dl_emit_definition dd) by done.
    rewrite <- !app_assoc. reflexivity. }
  split.
  - rewrite Hout. by rewrite <- !app_assoc.
  - rewrite Hout. apply includes_app.
Qed.

Lemma dl_pair_in_source_order_witness :
  TurndownRules.dl_replacement []
    (el "dl" [el "dt" [txt "A"]; el "dd" [txt "a"];
              el "dt" [txt " B "]; el "dd" [txt "b"]])
  = nl ++ nl ++ js "**A:** a" ++ nl ++ js "**B:** b" ++ nl ++ nl
  /\ includes (js "**B:** b" ++ nl)
       (TurndownRules.dl_replacement []
          (el "dl" [el "dt" [txt "A"]; el "dd" [txt "a"];
                    el "dt" [txt " B "]; el "dd" [txt "b"]])) = true.
Proof.
  exact (dl_pair_in_source_order []
           (el "dl" [el "dt" [txt "A"]; el "dd" [txt "a"];
                     el "dt" [txt " B "]; el "dd" [txt "b"]])
           [el "dt" [txt "A"]; el "dd" [txt "a"]]
           (el "dt" [txt " B "]) (el "dd" [txt "b"]) []
           eq_refl eq_refl eq_refl eq_refl eq_refl).
Defined.

(** ** The converter configurations *)

(** X13: the Turndown service the conversion step hands to [turndown]
    removes [script] and [style] always, [header], [footer] and [nav]
    exactly when [mainOnly] is set, and nothing else; it carries the
    [dl] and the [table] rule, the [dl] rule added last, and the [atx]
    heading style, whatever [mainOnly] is. *)
Theorem turndown_service_exclusion_set
  (turndown : TurndownService -> jsstring -> result jsstring)
  htmlString mainOnly w :
  exists svc,
    Server.convertByTD turndown htmlString mainOnly w
    = (turndown svc htmlString,
       {| heap := heap w ++ [TurndownObj svc]; trace := trace w |})
    /\ (forall f,
          In f (removed svc)
          <-> f = js "script" \/ f = js "style"
              \/ (mainOnly = true
                  /\ (f = js "header" \/ f = js "footer" \/ f = js "nav")))
    /\ rules svc = [(js "dl", Server.dl_rule); (js "table", Server.table_rule)]
    /\ headingStyle (options svc) = js "atx".
Proof.
  exists (configuredService mainOnly).
  split; [apply convertByTD_run|]. split; [|done].
  intros f. destruct mainOnly; cbn [configuredService removed app In].
  - intuition (subst; auto 10).
  - intuition (subst; auto 10; discriminate).
Qed.

Lemma customTranslators_literal_keys key :
  is_Some (NodeHtmlMarkdown.customTranslators_literal !! key)
  <-> key = js "dl" \/ key = js "dt" \/ key = js "dd" \/ key = js "Head".
Proof.
  unfold NodeHtmlMarkdown.customTranslators_literal.
  rewrite !lookup_insert_is_Some', lookup_empty.
  assert (Hnone : ~ is_Some (@None NodeHtmlMarkdown.TranslatorConfig))
    by (by intros [? ?]).
  intuition (subst; auto 10).
Qed.

(** X14: the translator table the conversion step hands to
    [NodeHtmlMarkdown.translate] has entries for [dl], [dt], [dd] and
    [Head] and no others when [mainOnly] is false; setting [mainOnly]
    adds [Header], [Footer] and [Nav], each marked [ignore], and leaves
    every other key as it was.  Neither table has an entry for [script]
    or [style]. *)
Theorem translator_table_keys
  (translate : jsstring -> gmap jsstring NodeHtmlMarkdown.TranslatorConfig
               -> result jsstring)
  htmlString mainOnly w :
  exists table,
    Server.convertByNHM translate htmlString mainOnly w
    = (translate htmlString table,
       {| heap := heap w ++ [TranslatorsObj table]; trace := trace w |})
    /\ (forall key,
          is_Some (table !! key)
          <-> key = js "dl" \/ key = js "dt" \/ key = js "dd"
              \/ key = js "Head"
              \/ (mainOnly = true
                  /\ (key = js "Header" \/ key = js "Footer"
                      \/ key = js "Nav")))
    /\ (forall key,
          key <> js "Header" -> key <> js "Footer" -> key <> js "Nav" ->
          table !! key = NodeHtmlMarkdown.customTranslators_literal !! key)
    /\ (mainOnly = true ->
        table !! js "Header" = Some NodeHtmlMarkdown.ignore_translator
        /\ table !! js "Footer" = Some NodeHtmlMarkdown.ignore_translator
        /\ table !! js "Nav" = Some NodeHtmlMarkdown.ignore_translator)
    /\ table !! js "script" = None
    /\ table !! js "style" = None.
Proof.
  exists (configuredTranslators mainOnly).
  split; [apply convertByNHM_run|].
  destruct mainOnly; cbn [configuredTranslators].
  - split; [|split; [|split; [|split]]].
    + intros key. rewrite !lookup_insert_is_Some'.
      rewrite customTranslators_literal_keys. intuition (subst; auto 10).
    + intros key H1 H2 H3. by rewrite !lookup_insert_ne.
    + intros _. split; [|split]; by vm_compute.
    + by vm_compute.
    + by vm_compute.
  - split; [|split; [|split; [|split]]].
    + intros key. rewrite customTranslators_literal_keys.
      intuition (subst; auto 10; discriminate).
    + done.
    + discriminate.
    + by vm_compute.
    + by vm_compute.
Qed.

Lemma translator_table_keys_witness :
  exists table,
    Server.convertByNHM (fun s _ => echo s) (js "<p>x</p>") true
      {| heap := []; trace := [] |}
    = (Ok (js "<p>x</p>"),
       {| heap := [TranslatorsObj table]; trace := [] |})
    /\ table !! js "Nav" = Some NodeHtmlMarkdown.ignore_translator
    /\ table !! js "dt" = Some NodeHtmlMarkdown.dt_translator.
Proof.
  destruct (translator_table_keys (fun s _ => echo s) (js "<p>x</p>") true
              {| heap := []; trace := [] |})
    as (table & Hrun & _ & Hsame & Hignore & _).
  exists table. split; [exact Hrun|]. split.
  - exact (proj2 (proj2 (Hignore eq_refl))).
  - rewrite (Hsame (js "dt")) by discriminate. reflexivity.
Defined.

(** ** Trimmed text *)

Lemma trimStart_split s :
  exists a, s = a ++ trimStart s /\ forallb isWhiteSpace a = true.
Proof.
  induction s as [|c s (a & Hs & Ha)]; [by exists []|].
  cbn [trimStart]. destruct (isWhiteSpace c) eqn:Hc.
  - exists (c :: a). split; [by rewrite <- app_comm_cons, <- Hs|].
    cbn [forallb]. by rewrite Hc, Ha.
  - by exists [].
Qed.

Lemma trimStart_clean s : startsClean (trimStart s) = true.
Proof.
  induction s as [|c s IH]; [done|].
  cbn [trimStart]. destruct (isWhiteSpace c) eqn:Hc; [done|].
  cbn [startsClean]. by rewrite Hc.
Qed.

Lemma trimStart_white s :
  forallb isWhiteSpace s = true -> trimStart s = [].
Proof.
  induction s as [|c s IH]; [done|]. cbn [forallb trimStart].
  intros H. apply andb_prop in H as [Hc Hs]. rewrite Hc. by apply IH.
Qed.

Lemma forallb_rev {A} (f : A -> bool) (l : list A) :
  forallb f (rev l) = forallb f l.
Proof.
  induction l as [|x l IH]; [done|].
  cbn [rev forallb]. rewrite forallb_app, IH. cbn [forallb].
  rewrite andb_true_r. apply andb_comm.
Qed.

Lemma trim_split s :
  exists a b,
    s = a ++ trim s ++ b
    /\ forallb isWhiteSpace a = true /\ forallb isWhiteSpace b = true.
Proof.
  destruct (trimStart_split s) as (a & Hs & Ha).
  destruct (trimStart_split (rev (trimStart s))) as (b & Hr & Hb).
  exists a, (rev b). split; [|split; [done | by rewrite forallb_rev]].
  rewrite Hs at 1. f_equal. unfold trim, trimEnd.
  rewrite <- rev_app_distr, <- Hr. by rewrite rev_involutive.
Qed.

Lemma trim_clean s : startsClean (trim s) = true /\ endsClean (trim s) = true.
Proof.
  split.
  - destruct (trimStart_split (rev (trimStart s))) as (b & Hr & Hb).
    assert (Hu : trimStart s = trim s ++ rev b).
    { unfold trim, trimEnd. rewrite <- rev_app_distr, <- Hr.
      by rewrite rev_involutive. }
    pose proof (trimStart_clean s) as Hc. rewrite Hu in Hc.
    by destruct (trim s).
  - unfold endsClean, trim, trimEnd. rewrite rev_involutive.
    apply trimStart_clean.
Qed.

Lemma trim_empty s : trim s = [] <-> forallb isWhiteSpace s = true.
Proof.
  split.
  - intros H. destruct (trim_split s) as (a & b & Hs & Ha & Hb).
    rewrite H in Hs. rewrite Hs, !forallb_app, Ha, Hb. done.
  - intros H. unfold trim, trimEnd. by rewrite (trimStart_white s H).
Qed.

(** X15: the text the rules print for a cell, a term or a definition
    is the node's text content with white space taken off both ends and
    nothing else changed: what is cut off in front and behind is white
    space only, what is left neither begins nor ends with white space,
    and it is empty exactly when the whole text is white space. *)
Theorem trimmedText_cuts_outer_white_space n text :
  textContent n = Some text ->
  (exists a b,
     text = a ++ trimmedText n ++ b
     /\ forallb isWhiteSpace a = true /\ forallb isWhiteSpace b = true)
  /\ startsClean (trimmedText n) = true
  /\ endsClean (trimmedText n) = true
  /\ (trimmedText n = [] <-> forallb isWhiteSpace text = true).
Proof.
  intros Htext. unfold trimmedText. rewrite Htext.
  cbn [option_map]. rewrite orEmpty_Some.
  split; [apply trim_split|]. split; [apply trim_clean|].
  split; [apply trim_clean | apply trim_empty].
Qed.

Lemma trimmedText_cuts_outer_white_space_witness :
  (exists a b,
     nl ++ js "  a b" ++ [0xA0] = a ++ js "a b" ++ b
     /\ forallb isWhiteSpace a = true /\ forallb isWhiteSpace b = true)
  /\ (trimmedText (el "td" [txt " "; el "b" [txt "  "]]) = []
      <-> forallb isWhiteSpace (js "   ") = true).
Proof.
  split.
  - exact (proj1 (trimmedText_cuts_outer_white_space
                    (el "td" [Text (nl ++ js "  a b" ++ [0xA0])])
                    (nl ++ js "  a b" ++ [0xA0]) eq_refl)).
  - exact (proj2 (proj2 (proj2 (trimmedText_cuts_outer_white_space
                                  (el "td" [txt " "; el "b" [txt "  "]])
                                  (js "   ") eq_refl)))).
Defined.

Lemma flat_map_nil_inv {A B} (f : A -> list B) (xs : list A) :
  flat_map f xs = [] -> forall x, In x xs -> f x = [].
Proof.
  induction xs as [|y ys IH]; [done|]. cbn [flat_map].
  intros H x [<- | Hx]; apply app_eq_nil in H as [Hy Hys]; [done|].
  by apply IH.
Qed.

(** X16: the [dl] rule returns nothing but its three framing line feeds
    exactly when no direct child is a [dt] or [dd] with non-empty
    trimmed text; terms and definitions that sit deeper in the list do
    not count. *)
Theorem dl_frame_only_exactly_without_direct_text content n :
  TurndownRules.dl_replacement content n = nl ++ nl ++ nl
  <-> forall child,
        In child (children n) ->
        truthy (trimmedText child) = false
        \/ (tagName child <> Some (js "DT")
            /\ tagName child <> Some (js "DD")).
Proof.
  rewrite dl_replacement_fragment. unfold dl_fragment. split.
  - intros H child Hchild.
    assert (Hnil : flat_map dl_emit (children n) = []).
    { apply (app_inv_tail nl). apply (app_inv_head (nl ++ nl)).
      rewrite <- !app_assoc. exact H. }
    pose proof (flat_map_nil_inv _ _ Hnil child Hchild) as Hemit.
    destruct (truthy (trimmedText child)) eqn:Htxt; [right | by left].
    split; intros Htag.
    + rewrite (dl_emit_term child Htag Htxt) in Hemit. discriminate.
    + rewrite (dl_emit_definition child Htag Htxt) in Hemit. discriminate.
  - intros H. rewrite flat_map_nothing; [done|].
    intros child Hchild. apply dl_emit_nothing. by apply H.
Qed.

(** ** Structures the strategies lose *)


(** C6 at its failing input, scenario 5 ([<dl><dt></dt><dd>Def</dd></dl>]).
    The Turndown rule tests the trimmed term before it prints the
    marker and returns only the line [ Def].  The translator table the
    NodeHtmlMarkdown strategy hands to its library has no such test:
    whatever [mainOnly] is, its [dt] entry is the unconditional prefix
    [**] and postfix [:** ], with no [ignore] flag and no [postprocess]
    hook, and its [dd] entry a postfix line feed; written around the
    empty term and the definition they spell [**:** Def]. *)
Theorem empty_term_marker_differs_by_strategy :
  TurndownRules.dl_replacement [] dl_scenario5
    = nl ++ nl ++ js " Def" ++ nl ++ nl
  /\ includes (js "**:**") (TurndownRules.dl_replacement [] dl_scenario5)
     = false
  /\ (forall translate htmlString mainOnly w,
        (Server.convertByNHM translate htmlString mainOnly w).1
        = translate htmlString (configuredTranslators mainOnly))
  /\ (forall mainOnly,
        configuredTranslators mainOnly !! js "dt"
          = Some NodeHtmlMarkdown.dt_translator
        /\ configuredTranslators mainOnly !! js "dd"
           = Some NodeHtmlMarkdown.dd_translator)
  /\ NodeHtmlMarkdown.prefix NodeHtmlMarkdown.dt_translator = Some (js "**")
  /\ NodeHtmlMarkdown.postfix NodeHtmlMarkdown.dt_translator
     = Some (js ":** ")
  /\ NodeHtmlMarkdown.ignore NodeHtmlMarkdown.dt_translator = None
  /\ NodeHtmlMarkdown.postprocess NodeHtmlMarkdown.dt_translator = None
  /\ NodeHtmlMarkdown.prefix NodeHtmlMarkdown.dd_translator = None
  /\ NodeHtmlMarkdown.postfix NodeHtmlMarkdown.dd_translator = Some nl
  /\ default [] (NodeHtmlMarkdown.prefix NodeHtmlMarkdown.dt_translator)
       ++ trimmedText (el "dt" [])
       ++ default [] (NodeHtmlMarkdown.postfix NodeHtmlMarkdown.dt_translator)
       ++ default [] (NodeHtmlMarkdown.prefix NodeHtmlMarkdown.dd_translator)
       ++ trimmedText (el "dd" [txt "Def"])
       ++ default [] (NodeHtmlMarkdown.postfix NodeHtmlMarkdown.dd_translator)
     = js "**:** Def" ++ nl
  /\ includes (js "**:**") (js "**:** Def" ++ nl) = true.
Proof.
  split; [reflexivity|]. split; [reflexivity|].
  split; [intros; by rewrite convertByNHM_run|].
  split; [intros []; split; by vm_compute|].
  repeat split.
Qed.
